(** * The latent worker lifecycle controller of buildbot

    A shallow embedding of [master/buildbot/worker/latent.py]
    ([AbstractLatentWorker]) and the properties of its state machine.

    The controller is a Python object whose methods run on Twisted's single
    reactor thread.  Methods decorated with [defer.inlineCallbacks] are
    generators: they run until a [yield] on a Deferred, are suspended there,
    and are resumed when that Deferred fires.  The embedding keeps that
    structure: every such method is split at its [yield]s into an entry
    segment and a resumption, the suspended generator is kept as a [Frame] in
    the world, and a Deferred is an identity (a number) whose firing is
    recorded in a trace together with the controller as a callback sees it at
    that moment. *)

From Stdlib Require Import ZArith List String Ascii Bool Arith Lia.
Import ListNotations.

Set Implicit Arguments.

(** ** Data model *)

(** [class States(enum.Enum)] *)
Inductive States : Set :=
| NOT_SUBSTANTIATED
| SUBSTANTIATING
| SUBSTANTIATED
| INSUBSTANTIATING
| INSUBSTANTIATING_SUBSTANTIATING.

Definition States_eqb (a b : States) : bool :=
  match a, b with
  | NOT_SUBSTANTIATED, NOT_SUBSTANTIATED
  | SUBSTANTIATING, SUBSTANTIATING
  | SUBSTANTIATED, SUBSTANTIATED
  | INSUBSTANTIATING, INSUBSTANTIATING
  | INSUBSTANTIATING_SUBSTANTIATING, INSUBSTANTIATING_SUBSTANTIATING => true
  | _, _ => false
  end.

(** [self.state in [s1, s2]] *)
Definition state_in (s : States) (l : list States) : bool :=
  existsb (States_eqb s) l.

(** Opaque values handed in by the collaborators: the build that asks for
    the worker, and the transport object ([bot], later [self.conn]). *)
Definition Build := string.
Definition Bot := string.
Bind Scope string_scope with Build Bot.

(** Identity of a Twisted [Deferred]. *)
Definition Deferred := nat.

(** The exceptions that travel through the controller. *)
Inductive Exn : Set :=
| LatentWorkerFailedToSubstantiate (name msg : string)
| LatentWorkerSubstantiatiationCancelled
| TimeoutError
| RuntimeError (msg : string)
| AssertionError
| OtherException (what : string).

(** What a Deferred is fired with: a value ([True], [None]) or a
    [failure.Failure] wrapping an exception. *)
Inductive Result : Set :=
| Success
| Failure (e : Exn).

(** What a Deferred owned by the driver or by the base class is fired with. *)
Inductive Outcome : Set :=
| Returned (v : bool)
| Errback (e : Exn).

(** The callables the controller hands to [reactor.callLater]. *)
Inductive Callback : Set :=
| cb_soft_disconnect
| cb_missing_timer_fired.

(** A [DelayedCall] as returned by [reactor.callLater(delay, callback)]. *)
Record DelayedCall : Set := mkDelayedCall {
  dc_id : nat;
  dc_delay : Z;
  dc_callback : Callback
}.

(** A [LatentWorkerForBuilder]; only [isBusy()] is consulted. *)
Record WorkerForBuilder : Set := mkWfb {
  builder_name : string;
  isBusy : bool
}.

(** [buildbot.util.Notifier]: the Deferreds handed out by [wait()] that have
    not been notified yet. *)
Definition Notifier := list Deferred.

(** The attributes of an [AbstractLatentWorker] instance that the methods
    below read or write.  [conn], [missing_timer], [missing_timeout],
    [parent], [notify_on_missing] and [workerforbuilders] are inherited from
    [AbstractWorker]. *)
Record Worker : Set := mkWorker {
  name : string;
  state : States;
  conn : option Bot;
  substantiation_build : option Build;
  build_wait_timer : option DelayedCall;
  missing_timer : option DelayedCall;
  build_wait_timeout : Z;
  missing_timeout : Z;
  _substantiation_notifier : Notifier;
  _insubstantiation_notifier : Notifier;
  workerforbuilders : list (string * WorkerForBuilder);
  parent : bool;
  notify_on_missing : list string
}.

Definition set_state (v : States) (s : Worker) : Worker :=
  mkWorker (name s) v (conn s) (substantiation_build s) (build_wait_timer s)
    (missing_timer s) (build_wait_timeout s) (missing_timeout s)
    (_substantiation_notifier s) (_insubstantiation_notifier s)
    (workerforbuilders s) (parent s) (notify_on_missing s).

Definition set_conn (v : option Bot) (s : Worker) : Worker :=
  mkWorker (name s) (state s) v (substantiation_build s) (build_wait_timer s)
    (missing_timer s) (build_wait_timeout s) (missing_timeout s)
    (_substantiation_notifier s) (_insubstantiation_notifier s)
    (workerforbuilders s) (parent s) (notify_on_missing s).

Definition set_substantiation_build (v : option Build) (s : Worker) : Worker :=
  mkWorker (name s) (state s) (conn s) v (build_wait_timer s)
    (missing_timer s) (build_wait_timeout s) (missing_timeout s)
    (_substantiation_notifier s) (_insubstantiation_notifier s)
    (workerforbuilders s) (parent s) (notify_on_missing s).

Definition set_build_wait_timer (v : option DelayedCall) (s : Worker) : Worker :=
  mkWorker (name s) (state s) (conn s) (substantiation_build s) v
    (missing_timer s) (build_wait_timeout s) (missing_timeout s)
    (_substantiation_notifier s) (_insubstantiation_notifier s)
    (workerforbuilders s) (parent s) (notify_on_missing s).

Definition set_missing_timer (v : option DelayedCall) (s : Worker) : Worker :=
  mkWorker (name s) (state s) (conn s) (substantiation_build s)
    (build_wait_timer s) v (build_wait_timeout s) (missing_timeout s)
    (_substantiation_notifier s) (_insubstantiation_notifier s)
    (workerforbuilders s) (parent s) (notify_on_missing s).

Definition set_substantiation_notifier (v : Notifier) (s : Worker) : Worker :=
  mkWorker (name s) (state s) (conn s) (substantiation_build s)
    (build_wait_timer s) (missing_timer s) (build_wait_timeout s)
    (missing_timeout s) v (_insubstantiation_notifier s)
    (workerforbuilders s) (parent s) (notify_on_missing s).

Definition set_insubstantiation_notifier (v : Notifier) (s : Worker) : Worker :=
  mkWorker (name s) (state s) (conn s) (substantiation_build s)
    (build_wait_timer s) (missing_timer s) (build_wait_timeout s)
    (missing_timeout s) (_substantiation_notifier s) v
    (workerforbuilders s) (parent s) (notify_on_missing s).

Definition set_workerforbuilders (v : list (string * WorkerForBuilder))
    (s : Worker) : Worker :=
  mkWorker (name s) (state s) (conn s) (substantiation_build s)
    (build_wait_timer s) (missing_timer s) (build_wait_timeout s)
    (missing_timeout s) (_substantiation_notifier s)
    (_insubstantiation_notifier s) v (parent s) (notify_on_missing s).

(** ** The world around the controller *)

(** What the controller does to its collaborators, in the order it does it.
    [ev_fired d r s] is the firing of Deferred [d] with [r]; [s] is the
    controller at that moment, which is what a callback of [d] observes. *)
Inductive Event : Set :=
| ev_log (msg : string)
| ev_log_err (e : Exn) (why : string)
| ev_start_instance (build : option Build) (d : Deferred)
| ev_stop_instance (fast : bool) (d : Deferred)
| ev_base_attached (bot : Bot) (d : Deferred)
| ev_disconnect (bot : Bot)
| ev_base_buildFinished (wfb : WorkerForBuilder)
| ev_maybeStartBuildsForWorker (workername : string)
| ev_workerMissing (notify : list string)
| ev_fired (d : Deferred) (r : Result) (s : Worker).

(** A generator suspended at a [yield]. *)
Inductive Frame : Set :=
| at_start_instance (dont_wait_to_attach : bool)
    (* _substantiate, at [yield self.start_instance(build)] *)
| at_base_attached (bot : Bot)
    (* attached, at [yield super().attached(bot)] *)
| at_stop_instance (notify_cancel : bool)
    (* insubstantiate, at [yield d] *)
| at_insubstantiation_wait.
    (* insubstantiate, at [yield self._insubstantiation_notifier.wait()] *)

Record Suspended : Set := mkSuspended {
  awaits : Deferred;      (* the Deferred the generator yielded *)
  frame : Frame;          (* where it stopped, with its live locals *)
  returns : Deferred      (* the Deferred inlineCallbacks gave its caller *)
}.

Record World : Set := mkWorld {
  self : Worker;
  reactor : list DelayedCall;   (* delayed calls that are still active *)
  next_id : nat;                (* supply of object identities *)
  suspended : list Suspended;
  trace : list Event
}.

Definition with_self (f : Worker -> Worker) (w : World) : World :=
  mkWorld (f (self w)) (reactor w) (next_id w) (suspended w) (trace w).

(** ** A state and exception monad for method bodies

    A Python exception leaves the mutations made before it in place, so the
    world is returned in both cases. *)

Inductive Res (A : Type) : Type :=
| Ok (a : A)
| Raise (e : Exn).
Arguments Raise {A} e.

Definition M (A : Type) : Type := World -> Res A * World.

Definition ret {A} (a : A) : M A := fun w => (Ok a, w).

Definition bind {A B} (m : M A) (f : A -> M B) : M B :=
  fun w => match m w with
           | (Ok a, w') => f a w'
           | (Raise e, w') => (Raise e, w')
           end.

Definition raise {A} (e : Exn) : M A := fun w => (Raise e, w).

(** [try: m  except Exception as e: h e] *)
Definition try_except {A} (m : M A) (h : Exn -> M A) : M A :=
  fun w => match m w with
           | (Ok a, w') => (Ok a, w')
           | (Raise e, w') => h e w'
           end.

Declare Scope monad_scope.
Delimit Scope monad_scope with monad.
Notation "x <- m ;; k" := (bind m (fun x => k))
  (at level 61, m at next level, right associativity) : monad_scope.
Notation "m ;; k" := (bind m (fun _ => k))
  (at level 61, right associativity) : monad_scope.
Local Open Scope monad_scope.

Definition gets {A} (f : Worker -> A) : M A := fun w => (Ok (f (self w)), w).

Definition modify (f : Worker -> Worker) : M unit :=
  fun w => (Ok tt, with_self f w).

Definition emit (e : Event) : M unit :=
  fun w => (Ok tt, mkWorld (self w) (reactor w) (next_id w) (suspended w)
                     (trace w ++ [e])).

Definition fresh : M nat :=
  fun w => (Ok (next_id w),
            mkWorld (self w) (reactor w) (S (next_id w)) (suspended w) (trace w)).

Definition when (b : bool) (m : M unit) : M unit := if b then m else ret tt.

(** [assert b] *)
Definition assert (b : bool) : M unit := if b then ret tt else raise AssertionError.

(** [log.msg(...)]; the interpolated names are left out. *)
Definition log_msg (msg : string) : M unit := emit (ev_log msg).

(** A Deferred fires: its callbacks see the controller as it is now. *)
Definition fire (d : Deferred) (r : Result) : M unit :=
  fun w => emit (ev_fired d r (self w)) w.

(** The generator yields Deferred [d]: it is parked until [d] fires. *)
Definition suspend (d : Deferred) (f : Frame) (out : Deferred) : M unit :=
  fun w => (Ok tt, mkWorld (self w) (reactor w) (next_id w)
                     (mkSuspended d f out :: suspended w) (trace w)).

(** The generator is done: [inlineCallbacks] fires the Deferred it returned,
    with the exception if the body raised one. *)
Definition finish (out : Deferred) (body : M unit) : M unit :=
  fun w => match body w with
           | (Ok _, w') => fire out Success w'
           | (Raise e, w') => fire out (Failure e) w'
           end.

(** The result of running a generator segment: it returned, or it yielded a
    Deferred and waits there. *)
Inductive Step : Set :=
| Done
| Yield (d : Deferred) (f : Frame).

(** [@defer.inlineCallbacks]: calling the method creates the Deferred that is
    returned to the caller and runs the generator up to its first [yield]. *)
Definition inlineCallbacks (body : M Step) : M Deferred :=
  out <- fresh ;;
  (fun w => match body w with
            | (Ok Done, w') => fire out Success w'
            | (Ok (Yield d f), w') => suspend d f out w'
            | (Raise e, w') => fire out (Failure e) w'
            end) ;;
  ret out.

(** [defer.succeed(True)]: a Deferred that has already fired. *)
Definition defer_succeed : M Deferred :=
  d <- fresh ;; fire d Success ;; ret d.

Fixpoint for_each {A} (l : list A) (f : A -> M unit) : M unit :=
  match l with
  | [] => ret tt
  | x :: l' => f x ;; for_each l' f
  end.

Definition is_some {A} (o : option A) : bool :=
  match o with Some _ => true | None => false end.

Definition is_nil {A} (l : list A) : bool :=
  match l with [] => true | _ :: _ => false end.

(** ** The reactor's delayed calls ([twisted.internet]) *)

Definition set_reactor (r : list DelayedCall) : M unit :=
  fun w => (Ok tt, mkWorld (self w) r (next_id w) (suspended w) (trace w)).

(** [reactor.callLater(delay, callback)] *)
Definition callLater (delay : Z) (cb : Callback) : M DelayedCall :=
  i <- fresh ;;
  let dc := mkDelayedCall i delay cb in
  (fun w => set_reactor (reactor w ++ [dc]) w) ;;
  ret dc.

(** [dc.active()] *)
Definition active (dc : DelayedCall) : M bool :=
  fun w => (Ok (existsb (fun c => dc_id c =? dc_id dc) (reactor w)), w).

(** [dc.cancel()] *)
Definition cancel (dc : DelayedCall) : M unit :=
  fun w => set_reactor
             (filter (fun c => negb (dc_id c =? dc_id dc)) (reactor w)) w.

(** ** Collaborators that are not part of latent.py *)

Fixpoint take_suspended (d : Deferred) (l : list Suspended)
    : option (Suspended * list Suspended) :=
  match l with
  | [] => None
  | s :: l' =>
      if awaits s =? d then Some (s, l')
      else match take_suspended d l' with
           | Some (x, r) => Some (x, s :: r)
           | None => None
           end
  end.

Definition set_suspended (l : list Suspended) : M unit :=
  fun w => (Ok tt, mkWorld (self w) (reactor w) (next_id w) l (trace w)).

(** The Deferred [d] handed out by a Notifier fires with [r].  If
    [insubstantiate] is parked on it ([yield notifier.wait()] followed by
    [return]), that generator ends and its own Deferred fires in turn. *)
Definition deliver (r : Result) (d : Deferred) : M unit :=
  fire d r ;;
  fun w => match take_suspended d (suspended w) with
           | Some (s, rest) =>
               match frame s with
               | at_insubstantiation_wait =>
                   (set_suspended rest ;; fire (returns s) r) w
               | _ => (Ok tt, w)
               end
           | None => (Ok tt, w)
           end.

Section Notifier.
  Variable get : Worker -> Notifier.
  Variable set : Notifier -> Worker -> Worker.

  (** Modelled from the spec: [buildbot.util.Notifier] is imported by
      latent.py but its source is not under src/.  [wait()] registers a
      waiter that completes when the notifier is next fired. *)
Definition Notifier_wait : M Deferred :=
    d <- fresh ;;
    modify (fun s => set (get s ++ [d]) s) ;;
    ret d.

  (** Modelled from the spec: [notify(result)] (the spec's [fire]) delivers
      [result] to every currently registered waiter and empties the waiter
      list; with zero waiters it has no effect. *)
Definition Notifier_notify (r : Result) : M unit :=
    waiters <- gets get ;;
    modify (set []) ;;
    for_each waiters (deliver r).
End Notifier.

(** Modelled from the spec: the truth value of a Notifier (the spec's
    [has_waiters]) is true iff at least one waiter is pending. *)
Definition Notifier_bool (n : Notifier) : bool := negb (is_nil n).

(** Modelled from the spec: [AbstractWorker.stopMissingTimer] is inherited
    and not under src/; it cancels [missing_timer]. *)
Definition stopMissingTimer : M unit :=
  t <- gets missing_timer ;;
  match t with
  | Some dc =>
      a <- active dc ;;
      when a (cancel dc) ;;
      modify (set_missing_timer None)
  | None => ret tt
  end.

(** Modelled from the spec: [AbstractWorker.startMissingTimer] is inherited
    and not under src/; it arms [missing_timer], the deadline for a started
    instance to attach. *)
Definition startMissingTimer : M unit :=
  stopMissingTimer ;;
  t <- gets missing_timeout ;;
  dc <- callLater t cb_missing_timer_fired ;;
  modify (set_missing_timer (Some dc)).

(** The driver: [start_instance(build)] and [stop_instance(fast)] are
    implemented by subclasses and return a Deferred that the driver fires
    later. *)
Definition start_instance (build : option Build) : M Deferred :=
  d <- fresh ;; emit (ev_start_instance build d) ;; ret d.

Definition stop_instance (fast : bool) : M Deferred :=
  d <- fresh ;; emit (ev_stop_instance fast d) ;; ret d.

(** [self._disconnect(bot)], inherited: drops the incoming transport. *)
Definition _disconnect (bot : Bot) : M unit := emit (ev_disconnect bot).

(** [super().attached(bot)], inherited: returns a Deferred. *)
Definition AbstractWorker_attached (bot : Bot) : M Deferred :=
  d <- fresh ;; emit (ev_base_attached bot d) ;; ret d.

(** Modelled from the spec: the outcome of the inherited [attached], which
    is not under src/: the base attach logic sets [conn]; it can fail. *)
Definition AbstractWorker_attached_result (bot : Bot) (o : Outcome) : M unit :=
  match o with
  | Returned _ => modify (set_conn (Some bot))
  | Errback e => raise e
  end.

(** Modelled from the spec: [detached], inherited and not under src/, clears
    [conn] and makes no state transition. *)
Definition detached : M unit := modify (set_conn None).

(** ** The methods of [AbstractLatentWorker] *)

Definition msg_unsolicited : string :=
  "Worker received connection while not trying to substantiate.  Disconnecting.".

Definition msg_not_now : string :=
  "Worker does not want to substantiate at this time".

(** [reconfigService(name, password, build_wait_timeout=60 * 10)] on a
    freshly constructed worker: the class attributes give the other
    fields their initial values. *)
Definition reconfigService (workername : string) (bwt missing : Z)
    (notify : list string)
    (wfbs : list (string * WorkerForBuilder)) : Worker :=
  {| name := workername;
     state := NOT_SUBSTANTIATED;
     conn := None;
     substantiation_build := None;
     build_wait_timer := None;
     missing_timer := None;
     build_wait_timeout := bwt;
     missing_timeout := missing;
     _substantiation_notifier := [];
     _insubstantiation_notifier := [];
     workerforbuilders := wfbs;
     parent := true;
     notify_on_missing := notify |}.

Definition default_build_wait_timeout : Z := 60 * 10.

(** The [building] property: the busy builder bindings. *)
Definition building (s : Worker) : list WorkerForBuilder :=
  filter isBusy (map snd (workerforbuilders s)).

(** The [substantiated] property. *)
Definition substantiated (s : Worker) : bool :=
  States_eqb (state s) SUBSTANTIATED && is_some (conn s).

Definition _clearBuildWaitTimer : M unit :=
  t <- gets build_wait_timer ;;
  match t with
  | Some dc =>
      a <- active dc ;;
      when a (cancel dc) ;;
      modify (set_build_wait_timer None)
  | None => ret tt
  end.

Definition _setBuildWaitTimer : M unit :=
  _clearBuildWaitTimer ;;
  bwt <- gets build_wait_timeout ;;
  if (bwt <=? 0)%Z then ret tt
  else
    dc <- callLater bwt cb_soft_disconnect ;;
    modify (set_build_wait_timer (Some dc)).

Definition _fireSubstantiationNotifier (result : Result) : M unit :=
  n <- gets _substantiation_notifier ;;
  if negb (Notifier_bool n) then
    log_msg "No substantiation deferred"
  else
    log_msg (match result with
             | Success => "Firing substantiation deferred with success"
             | Failure _ => "Firing substantiation deferred with failure"
             end) ;;
    modify (set_substantiation_build None) ;;
    Notifier_notify _substantiation_notifier set_substantiation_notifier result.

(** [_substantiate(build)] up to [yield self.start_instance(build)]. *)
Definition _substantiate (build : option Build) : M Deferred :=
  inlineCallbacks (
    bwt <- gets build_wait_timeout ;;
    c <- gets conn ;;
    let dont_wait_to_attach := (bwt <? 0)%Z && is_some c in
    d <- start_instance build ;;
    ret (Yield d (at_start_instance dont_wait_to_attach))).

(** [insubstantiate(fast, force_substantiation)] up to its [yield]. *)
Definition insubstantiate (fast force_substantiation : bool) : M Deferred :=
  inlineCallbacks (
    log_msg "insubstantiating worker" ;;
    st <- gets state ;;
    if States_eqb st NOT_SUBSTANTIATED then ret Done
    else if States_eqb st INSUBSTANTIATING then
      d <- Notifier_wait _insubstantiation_notifier
             set_insubstantiation_notifier ;;
      ret (Yield d at_insubstantiation_wait)
    else if States_eqb st INSUBSTANTIATING_SUBSTANTIATING then
      modify (set_state INSUBSTANTIATING) ;;
      _fireSubstantiationNotifier
        (Failure LatentWorkerSubstantiatiationCancelled) ;;
      d <- Notifier_wait _insubstantiation_notifier
             set_insubstantiation_notifier ;;
      ret (Yield d at_insubstantiation_wait)
    else
      let notify_cancel := States_eqb st SUBSTANTIATING in
      modify (set_state (if force_substantiation
                         then INSUBSTANTIATING_SUBSTANTIATING
                         else INSUBSTANTIATING)) ;;
      _clearBuildWaitTimer ;;
      d <- stop_instance fast ;;
      ret (Yield d (at_stop_instance notify_cancel))).

(** The errback [log.err] that the callers add to the Deferred returned by
    [insubstantiate] only logs and is left out. *)
Definition _substantiation_failed (failure : Result) : M unit :=
  st <- gets state ;;
  when (States_eqb st SUBSTANTIATING)
    (modify (set_substantiation_build None) ;;
     _fireSubstantiationNotifier failure) ;;
  _ <- insubstantiate false false ;;
  p <- gets parent ;;
  n <- gets notify_on_missing ;;
  if negb p || is_nil n then ret tt
  else emit (ev_workerMissing n).

(** [_substantiate] from the point where [start_instance]'s Deferred has
    fired with [o]. *)
Definition _substantiate_resume (dont_wait_to_attach : bool) (o : Outcome)
    : M unit :=
  try_except
    (start_success <- match o with
                      | Returned v => ret v
                      | Errback e => raise e
                      end ;;
     if negb start_success then
       nm <- gets name ;;
       raise (LatentWorkerFailedToSubstantiate nm msg_not_now)
     else
       st <- gets state ;;
       c <- gets conn ;;
       if dont_wait_to_attach && States_eqb st SUBSTANTIATING && is_some c
       then
         log_msg "Worker substantiated (already attached)" ;;
         modify (set_state SUBSTANTIATED) ;;
         _fireSubstantiationNotifier Success
       else ret tt)
    (fun e =>
       stopMissingTimer ;;
       _substantiation_failed (Failure e)).

(** [insubstantiate] from the point where [stop_instance]'s Deferred has
    fired with [o]. *)
Definition insubstantiate_resume (notify_cancel : bool) (o : Outcome)
    : M unit :=
  match o with
  | Returned _ => ret tt
  | Errback e => emit (ev_log_err e "while insubstantiating")
  end ;;
  st <- gets state ;;
  assert (state_in st [INSUBSTANTIATING; INSUBSTANTIATING_SUBSTANTIATING]) ;;
  n <- gets _substantiation_notifier ;;
  when (notify_cancel && Notifier_bool n)
    (_fireSubstantiationNotifier
       (Failure LatentWorkerSubstantiatiationCancelled)) ;;
  st <- gets state ;;
  (if States_eqb st INSUBSTANTIATING_SUBSTANTIATING then
     modify (set_state SUBSTANTIATING) ;;
     n <- gets _insubstantiation_notifier ;;
     when (Notifier_bool n)
       (Notifier_notify _insubstantiation_notifier
          set_insubstantiation_notifier Success) ;;
     b <- gets substantiation_build ;;
     _ <- _substantiate b ;;
     ret tt
   else if States_eqb st INSUBSTANTIATING then
     modify (set_state NOT_SUBSTANTIATED) ;;
     n <- gets _insubstantiation_notifier ;;
     when (Notifier_bool n)
       (Notifier_notify _insubstantiation_notifier
          set_insubstantiation_notifier Success)
   else ret tt) ;;
  nm <- gets name ;;
  emit (ev_maybeStartBuildsForWorker nm).

Definition substantiate (wfb : WorkerForBuilder) (build : Build) : M Deferred :=
  log_msg "substantiating worker" ;;
  st <- gets state ;;
  c <- gets conn ;;
  if States_eqb st SUBSTANTIATED && is_some c then
    _setBuildWaitTimer ;;
    defer_succeed
  else if state_in st [SUBSTANTIATING; INSUBSTANTIATING_SUBSTANTIATING] then
    Notifier_wait _substantiation_notifier set_substantiation_notifier
  else
    startMissingTimer ;;
    modify (set_substantiation_build (Some build)) ;;
    d <- Notifier_wait _substantiation_notifier set_substantiation_notifier ;;
    st <- gets state ;;
    c <- gets conn ;;
    if States_eqb st SUBSTANTIATED && negb (is_some c) then
      _ <- insubstantiate false true ;;
      ret d
    else
      assert (state_in st [NOT_SUBSTANTIATED; INSUBSTANTIATING]) ;;
      (if States_eqb st NOT_SUBSTANTIATED then
         modify (set_state SUBSTANTIATING) ;;
         _ <- _substantiate (Some build) ;;
         ret tt
       else
         modify (set_state INSUBSTANTIATING_SUBSTANTIATING)) ;;
      ret d.

(** [attached(bot)] up to [yield super().attached(bot)]. *)
Definition attached (bot : Bot) : M Deferred :=
  inlineCallbacks (
    st <- gets state ;;
    bwt <- gets build_wait_timeout ;;
    if negb (States_eqb st SUBSTANTIATING) && (0 <=? bwt)%Z then
      log_msg msg_unsolicited ;;
      _disconnect bot ;;
      raise (RuntimeError msg_unsolicited)
    else
      d <- AbstractWorker_attached bot ;;
      ret (Yield d (at_base_attached bot))).

(** [attached] from the point where the inherited [attached] has finished
    with [o]. *)
Definition attached_resume (bot : Bot) (o : Outcome) : M unit :=
  ok <- try_except
          (AbstractWorker_attached_result bot o ;; ret true)
          (fun e => _substantiation_failed (Failure e) ;; ret false) ;;
  if negb ok then ret tt
  else
    log_msg "Worker substantiated \o/" ;;
    st <- gets state ;;
    when (States_eqb st SUBSTANTIATING) (modify (set_state SUBSTANTIATED)) ;;
    _fireSubstantiationNotifier Success.

Definition _missing_timer_fired : M unit :=
  modify (set_missing_timer None) ;;
  _substantiation_failed (Failure TimeoutError).

Definition buildStarted (wfb : WorkerForBuilder) : M unit :=
  assert (isBusy wfb) ;;
  _clearBuildWaitTimer.

(** [super().buildFinished(wfb)] is inherited; it is recorded as a call. *)
Definition buildFinished (wfb : WorkerForBuilder) : M unit :=
  assert (negb (isBusy wfb)) ;;
  b <- gets building ;;
  when (is_nil b)
    (bwt <- gets build_wait_timeout ;;
     if (bwt =? 0)%Z then
       _ <- callLater 0 cb_soft_disconnect ;;
       ret tt
     else _setBuildWaitTimer) ;;
  emit (ev_base_buildFinished wfb).

(** ** Running the controller

    [_soft_disconnect], [disconnect] and [stopService] are not embedded: they
    appear only as the callback [cb_soft_disconnect] of a delayed call. *)

(** What can happen to the controller between two reactor turns. *)
Inductive Input : Set :=
| call_substantiate (wfb : WorkerForBuilder) (build : Build)
| call_insubstantiate (fast force_substantiation : bool)
| call_attached (bot : Bot)
| call_detached
| call_buildStarted (wfb : WorkerForBuilder)
| call_buildFinished (wfb : WorkerForBuilder)
| deferred_fires (d : Deferred) (o : Outcome)
| missing_timer_expires.

(** Resume the generator parked in [s] with outcome [o] of the Deferred it
    yielded. *)
Definition resume (s : Suspended) (o : Outcome) : M unit :=
  match frame s with
  | at_start_instance dont_wait_to_attach =>
      finish (returns s) (_substantiate_resume dont_wait_to_attach o)
  | at_base_attached bot =>
      finish (returns s) (attached_resume bot o)
  | at_stop_instance notify_cancel =>
      finish (returns s) (insubstantiate_resume notify_cancel o)
  | at_insubstantiation_wait => ret tt
  end.

(** A Deferred owned by the driver or by the base class fires. *)
Definition on_deferred (d : Deferred) (o : Outcome) : M unit :=
  fun w => match take_suspended d (suspended w) with
           | Some (s, rest) =>
               match frame s with
               | at_insubstantiation_wait => (Ok tt, w)
               | _ => (set_suspended rest ;; resume s o) w
               end
           | None => (Ok tt, w)
           end.

(** The reactor runs the delayed call held in [missing_timer]. *)
Definition on_missing_timer : M unit :=
  t <- gets missing_timer ;;
  match t with
  | Some dc =>
      a <- active dc ;;
      when a (cancel dc ;; _missing_timer_fired)
  | None => ret tt
  end.

Definition handle (i : Input) : M unit :=
  match i with
  | call_substantiate wfb build => _ <- substantiate wfb build ;; ret tt
  | call_insubstantiate fast force => _ <- insubstantiate fast force ;; ret tt
  | call_attached bot => _ <- attached bot ;; ret tt
  | call_detached => detached
  | call_buildStarted wfb => buildStarted wfb
  | call_buildFinished wfb => buildFinished wfb
  | deferred_fires d o => on_deferred d o
  | missing_timer_expires => on_missing_timer
  end.

Definition step (w : World) (i : Input) : World := snd (handle i w).

Definition run (w : World) (l : list Input) : World := fold_left step l w.

(** A controller that has just been configured, with nothing in flight. *)
Definition boot (s : Worker) : World := mkWorld s [] 0 [] [].

(** The events a run has added to the trace. *)
Definition emitted (w w' : World) : list Event :=
  skipn (List.length (trace w)) (trace w').

(** The controller as seen by the callbacks of Deferred [d], at each of its
    firings recorded in [evs]. *)
Fixpoint firings (d : Deferred) (evs : list Event) : list (Result * Worker) :=
  match evs with
  | [] => []
  | ev_fired d' r s :: evs' =>
      if d' =? d then (r, s) :: firings d evs' else firings d evs'
  | _ :: evs' => firings d evs'
  end.

(** A timer attribute is armed when it holds a delayed call. *)
Definition armed (t : option DelayedCall) : Prop := t <> None.

(** ** [getRandomPass] *)

Definition ascii_lowercase : list ascii :=
  list_ascii_of_string "abcdefghijklmnopqrstuvwxyz".
Definition ascii_uppercase : list ascii :=
  list_ascii_of_string "ABCDEFGHIJKLMNOPQRSTUVWXYZ".
Definition ascii_letters : list ascii := ascii_lowercase ++ ascii_uppercase.
Definition digits : list ascii := list_ascii_of_string "0123456789".

Section Random.
  (** The generator behind the [random] module: [randbelow k n] is the index
      below [n] that it hands out at its [k]-th draw. *)
  Variable randbelow : nat -> nat -> nat.

  (** [random.choice(seq)] at draw [k]: [seq[randbelow(len(seq))]]. *)
Definition random_choice (seq : list ascii) (k : nat) : ascii :=
    nth (randbelow k (List.length seq)) seq Ascii.zero.

  (** [''.join(random.choice(string.ascii_letters + string.digits)
              for _ in range(20))], the generator standing at draw [k0]. *)
Definition getRandomPass (k0 : nat) : string :=
    string_of_list_ascii
      (map (fun i => random_choice (ascii_letters ++ digits) (k0 + i))
           (seq 0 20)).
End Random.

(** The character class [[A-Za-z0-9]], by ASCII code. *)
Definition alnum (c : ascii) : bool :=
  let n := nat_of_ascii c in
  ((65 <=? n) && (n <=? 90)) || ((97 <=? n) && (n <=? 122))
  || ((48 <=? n) && (n <=? 57)).

(** ** Statements and scenarios used below *)

(** The sentence about [substantiate] on a connected, substantiated worker,
    as the specification words it: the idle timer is armed, the returned
    Deferred already carries [True], and [state] is unchanged. *)
Definition substantiate_ready_claim (w : World) (wfb : WorkerForBuilder)
    (build : Build) : Prop :=
  state (self w) = SUBSTANTIATED ->
  conn (self w) <> None ->
  let r := substantiate wfb build w in
  armed (build_wait_timer (self (snd r)))
  /\ (exists d, fst r = Ok d
                /\ In (ev_fired d Success (self (snd r))) (trace (snd r)))
  /\ state (self (snd r)) = state (self w).

Definition wfb_idle : WorkerForBuilder := mkWfb "builder" false.

(** A worker configured with [build_wait_timeout=0], brought up by a first
    build: [substantiate], the driver starts the instance, the worker
    attaches. *)
Definition ready_world_bwt0 : World :=
  run (boot (reconfigService "latent" 0 120 [] [("builder"%string, wfb_idle)]))
      [call_substantiate wfb_idle "B1";
       deferred_fires 3 (Returned true);
       call_attached "bot";
       deferred_fires 5 (Returned true)].

(** The exception [_substantiate] ends up with when [start_instance] does not
    report a started instance: the one it raises itself when the driver
    answered [False], the driver's own when the driver raised. *)
Definition start_failure (workername : string) (o : Outcome) : option Exn :=
  match o with
  | Returned true => None
  | Returned false =>
      Some (LatentWorkerFailedToSubstantiate workername msg_not_now)
  | Errback e => Some e
  end.

Definition is_FailedToSubstantiate (r : Result) : Prop :=
  exists n m, r = Failure (LatentWorkerFailedToSubstantiate n m).

(** The sentence about a failed [start_instance], as the specification words
    it: the missing timer is cancelled, every waiter of the substantiation
    notifier receives a failure of kind FailedToSubstantiate, and
    [insubstantiate()] is called. *)
Definition start_failure_claim (w : World) (dont_wait_to_attach : bool)
    (o : Outcome) : Prop :=
  start_failure (name (self w)) o <> None ->
  let w' := snd (_substantiate_resume dont_wait_to_attach o w) in
  missing_timer (self w') = None
  /\ (forall d, In d (_substantiation_notifier (self w)) ->
        exists r s, In (ev_fired d r s) (emitted w w')
                    /\ is_FailedToSubstantiate r)
  /\ In (ev_log "insubstantiating worker") (emitted w w').

(** A substantiation for build B1 is cancelled by [insubstantiate()] while
    the driver is still starting the instance. *)
Definition cancelled_while_starting : World :=
  run (boot (reconfigService "latent" 600 120 [] [("builder"%string, wfb_idle)]))
      [call_substantiate wfb_idle "B1";
       call_insubstantiate false false].

(** The invariant that links [state] to the pending build. *)
Definition pending_build_invariant (s : Worker) : Prop :=
  state s = SUBSTANTIATING \/ state s = INSUBSTANTIATING_SUBSTANTIATING ->
  substantiation_build s <> None.

Definition fresh_world : World :=
  boot (reconfigService "latent" 600 120 [] [("builder"%string, wfb_idle)]).

(** A substantiation for B1 is in flight; [insubstantiate()] cancels it and
    starts the tear-down; [substantiate] for B2 arrives and is queued; then
    the driver reports that the instance is stopped.  The Deferreds are
    numbered as they are created: 1 is B1's waiter, 3 the first
    [start_instance], 4 and 5 [insubstantiate()] and its [stop_instance],
    7 B2's waiter. *)
Definition requeue_after_cancel : list Input :=
  [call_substantiate wfb_idle "B1";
   call_insubstantiate false false;
   call_substantiate wfb_idle "B2"].

Definition requeue_after_cancel_stopped : list Input :=
  requeue_after_cancel ++ [deferred_fires 5 (Returned true)].

(** The controller once [insubstantiate] is over, as the specification
    describes it. *)
Definition torn_down (s : Worker) : Prop :=
  state s = NOT_SUBSTANTIATED
  /\ conn s = None
  /\ substantiation_build s = None
  /\ ~ armed (build_wait_timer s)
  /\ ~ armed (missing_timer s).

(** The sentence about the completion of [insubstantiate()], as the
    specification words it: the controller has run through [before],
    [insubstantiate] is called, the controller runs on through [after];
    whenever the Deferred that the call returned fires, the controller is
    torn down. *)
Definition insubstantiate_claim (w0 : World) (before : list Input)
    (fast force : bool) (after : list Input) : Prop :=
  let w := run w0 before in
  let r := insubstantiate fast force w in
  forall d, fst r = Ok d ->
  forall res s, In (res, s) (firings d (emitted w (run (snd r) after))) ->
  torn_down s.

(** A first build brings the worker up: [substantiate], the instance
    starts, the worker attaches. *)
Definition bring_up : list Input :=
  [call_substantiate wfb_idle "B1";
   deferred_fires 3 (Returned true);
   call_attached "bot";
   deferred_fires 5 (Returned true)].

(** While the instance is being stopped (Deferred 7), a new build asks for
    the worker. *)
Definition rebuild_during_tear_down : list Input :=
  [call_substantiate wfb_idle "B2";
   deferred_fires 7 (Returned true)].

(** The round trip of the specification, on a worker whose identity supply
    stands at [n]: a build asks for the worker ([n+1] is its waiter, [n+3]
    the Deferred of [start_instance]); the driver reports the instance
    started; the worker attaches ([n+5] is the Deferred of the inherited
    [attached]) and that succeeds; then [insubstantiate()] is called (it
    returns [n+6]; [n+7] is the Deferred of [stop_instance]) and the driver
    finishes stopping the instance, with or without an error. *)
Definition bring_up_at (n : nat) (wfb : WorkerForBuilder) (build : Build)
    (bot : Bot) : list Input :=
  [call_substantiate wfb build;
   deferred_fires (3 + n) (Returned true);
   call_attached bot;
   deferred_fires (5 + n) (Returned true)].

Definition tear_down_at (n : nat) (stopped : Outcome) : list Input :=
  [call_insubstantiate false false;
   deferred_fires (7 + n) stopped].

(** The [notify_cancel] flags of the calls of [insubstantiate] that are
    parked on [stop_instance], most recent first. *)
Fixpoint stop_frames (l : list Suspended) : list bool :=
  match l with
  | [] => []
  | s :: l' =>
      match frame s with
      | at_stop_instance notify_cancel => notify_cancel :: stop_frames l'
      | _ => stop_frames l'
      end
  end.

(** A tear-down is in progress. *)
Definition tearing_down (s : States) : bool :=
  state_in s [INSUBSTANTIATING; INSUBSTANTIATING_SUBSTANTIATING].

(** What the controller keeps true between two inputs:
    - a pending build always has somebody waiting for it;
    - a worker that is down or up has no pending build;
    - exactly one call of [insubstantiate] is parked on [stop_instance]
      while a tear-down is in progress, and none otherwise;
    - a build that is still pending while the worker is INSUBSTANTIATING
      belongs to the substantiation that this tear-down is to cancel. *)
Definition controller_invariant (w : World) : Prop :=
  (substantiation_build (self w) <> None ->
   _substantiation_notifier (self w) <> [])
  /\ (state (self w) = NOT_SUBSTANTIATED \/ state (self w) = SUBSTANTIATED ->
      substantiation_build (self w) = None)
  /\ (if tearing_down (state (self w))
      then exists notify_cancel,
             stop_frames (suspended w) = [notify_cancel]
             /\ (state (self w) = INSUBSTANTIATING ->
                 substantiation_build (self w) <> None ->
                 notify_cancel = true)
      else stop_frames (suspended w) = []).

(** ** Deferreds that have fired already

    [inlineCallbacks] resumes a generator at once when the Deferred it
    yields already holds a result.  The segments above take the driver's
    Deferreds to be pending when they are yielded; the definitions below
    take what they hold at that moment as a parameter: [None] for a Deferred
    that is still pending, [Some o] for one that was fired with [o] before
    it was returned (for [start_instance], which is called inside the [try],
    also for an exception raised by the call itself). *)
Section ImmediateAnswers.
Variable start_now : option Outcome.
Variable stop_now : option Outcome.

(** [self.insubstantiate()] as [_substantiation_failed] calls it.  When
    [stop_instance] has answered already, the generator runs on through the
    rest of the method; the state is then INSUBSTANTIATING (nothing was
    forced), so that the rest never gets to [_substantiate]. *)
Definition insubstantiate_now : M Deferred :=
  inlineCallbacks (
    log_msg "insubstantiating worker" ;;
    st <- gets state ;;
    if States_eqb st NOT_SUBSTANTIATED then ret Done
    else if States_eqb st INSUBSTANTIATING then
      d <- Notifier_wait _insubstantiation_notifier
             set_insubstantiation_notifier ;;
      ret (Yield d at_insubstantiation_wait)
    else if States_eqb st INSUBSTANTIATING_SUBSTANTIATING then
      modify (set_state INSUBSTANTIATING) ;;
      _fireSubstantiationNotifier
        (Failure LatentWorkerSubstantiatiationCancelled) ;;
      d <- Notifier_wait _insubstantiation_notifier
             set_insubstantiation_notifier ;;
      ret (Yield d at_insubstantiation_wait)
    else
      let notify_cancel := States_eqb st SUBSTANTIATING in
      modify (set_state INSUBSTANTIATING) ;;
      _clearBuildWaitTimer ;;
      d <- stop_instance false ;;
      match stop_now with
      | None => ret (Yield d (at_stop_instance notify_cancel))
      | Some o => insubstantiate_resume notify_cancel o ;; ret Done
      end).

Definition _substantiation_failed_now (failure : Result) : M unit :=
  st <- gets state ;;
  when (States_eqb st SUBSTANTIATING)
    (modify (set_substantiation_build None) ;;
     _fireSubstantiationNotifier failure) ;;
  _ <- insubstantiate_now ;;
  p <- gets parent ;;
  n <- gets notify_on_missing ;;
  if negb p || is_nil n then ret tt
  else emit (ev_workerMissing n).

Definition _substantiate_resume_now (dont_wait_to_attach : bool)
    (o : Outcome) : M unit :=
  try_except
    (start_success <- match o with
                      | Returned v => ret v
                      | Errback e => raise e
                      end ;;
     if negb start_success then
       nm <- gets name ;;
       raise (LatentWorkerFailedToSubstantiate nm msg_not_now)
     else
       st <- gets state ;;
       c <- gets conn ;;
       if dont_wait_to_attach && States_eqb st SUBSTANTIATING && is_some c
       then
         log_msg "Worker substantiated (already attached)" ;;
         modify (set_state SUBSTANTIATED) ;;
         _fireSubstantiationNotifier Success
       else ret tt)
    (fun e =>
       stopMissingTimer ;;
       _substantiation_failed_now (Failure e)).

(** [_substantiate(build)], through to its end when [start_instance] has
    answered already. *)
Definition _substantiate_now (build : option Build) : M Deferred :=
  inlineCallbacks (
    bwt <- gets build_wait_timeout ;;
    c <- gets conn ;;
    let dont_wait_to_attach := (bwt <? 0)%Z && is_some c in
    d <- start_instance build ;;
    match start_now with
    | None => ret (Yield d (at_start_instance dont_wait_to_attach))
    | Some o => _substantiate_resume_now dont_wait_to_attach o ;; ret Done
    end).

(** [insubstantiate] from the point where [stop_instance]'s Deferred has
    fired with [o]. *)
Definition insubstantiate_resume_now (notify_cancel : bool) (o : Outcome)
    : M unit :=
  match o with
  | Returned _ => ret tt
  | Errback e => emit (ev_log_err e "while insubstantiating")
  end ;;
  st <- gets state ;;
  assert (state_in st [INSUBSTANTIATING; INSUBSTANTIATING_SUBSTANTIATING]) ;;
  n <- gets _substantiation_notifier ;;
  when (notify_cancel && Notifier_bool n)
    (_fireSubstantiationNotifier
       (Failure LatentWorkerSubstantiatiationCancelled)) ;;
  st <- gets state ;;
  (if States_eqb st INSUBSTANTIATING_SUBSTANTIATING then
     modify (set_state SUBSTANTIATING) ;;
     n <- gets _insubstantiation_notifier ;;
     when (Notifier_bool n)
       (Notifier_notify _insubstantiation_notifier
          set_insubstantiation_notifier Success) ;;
     b <- gets substantiation_build ;;
     _ <- _substantiate_now b ;;
     ret tt
   else if States_eqb st INSUBSTANTIATING then
     modify (set_state NOT_SUBSTANTIATED) ;;
     n <- gets _insubstantiation_notifier ;;
     when (Notifier_bool n)
       (Notifier_notify _insubstantiation_notifier
          set_insubstantiation_notifier Success)
   else ret tt) ;;
  nm <- gets name ;;
  emit (ev_maybeStartBuildsForWorker nm).

(** [insubstantiate(fast, force_substantiation)], through to its end when
    [stop_instance] has answered already. *)
Definition insubstantiate_with (fast force_substantiation : bool)
    : M Deferred :=
  inlineCallbacks (
    log_msg "insubstantiating worker" ;;
    st <- gets state ;;
    if States_eqb st NOT_SUBSTANTIATED then ret Done
    else if States_eqb st INSUBSTANTIATING then
      d <- Notifier_wait _insubstantiation_notifier
             set_insubstantiation_notifier ;;
      ret (Yield d at_insubstantiation_wait)
    else if States_eqb st INSUBSTANTIATING_SUBSTANTIATING then
      modify (set_state INSUBSTANTIATING) ;;
      _fireSubstantiationNotifier
        (Failure LatentWorkerSubstantiatiationCancelled) ;;
      d <- Notifier_wait _insubstantiation_notifier
             set_insubstantiation_notifier ;;
      ret (Yield d at_insubstantiation_wait)
    else
      let notify_cancel := States_eqb st SUBSTANTIATING in
      modify (set_state (if force_substantiation
                         then INSUBSTANTIATING_SUBSTANTIATING
                         else INSUBSTANTIATING)) ;;
      _clearBuildWaitTimer ;;
      d <- stop_instance fast ;;
      match stop_now with
      | None => ret (Yield d (at_stop_instance notify_cancel))
      | Some o => insubstantiate_resume_now notify_cancel o ;; ret Done
      end).
End ImmediateAnswers.

(** The controller once a resumed [insubstantiate] has delivered the
    cancellation it owes: [if notify_cancel and
    self._substantiation_notifier] (l.376-379). *)
Definition cancellation_delivered (notify_cancel : bool) (s : Worker)
    : Worker :=
  if notify_cancel && Notifier_bool (_substantiation_notifier s)
  then set_substantiation_notifier [] (set_substantiation_build None s)
  else s.

(** The controller as the waiters of the insubstantiation notifier see it
    when [stop_instance] has finished (l.381-389): the cancellation is
    delivered, the state has moved on and the notifier is emptied. *)
Definition stopped_snapshot (notify_cancel : bool) (s : Worker) : Worker :=
  set_insubstantiation_notifier []
    (set_state (if States_eqb (state s) INSUBSTANTIATING
                then NOT_SUBSTANTIATED else SUBSTANTIATING)
       (cancellation_delivered notify_cancel s)).

(** The controller once [_fireSubstantiationNotifier] has run (l.235-245). *)
Definition notifier_fired (s : Worker) : Worker :=
  if Notifier_bool (_substantiation_notifier s)
  then set_substantiation_notifier [] (set_substantiation_build None s)
  else s.

(** The controller when [_substantiate], called in state SUBSTANTIATING,
    hands control back (l.204-233 and 280-285): untouched while
    [start_instance] is pending or when the instance has started and the
    worker is yet to attach; SUBSTANTIATED with the waiters notified on the
    fast path of a worker that is attached already; and when the driver
    did not start the instance, without missing timer, pending build and
    waiters, and tearing down again: INSUBSTANTIATING while
    [stop_instance] is pending, NOT_SUBSTANTIATED when it has answered. *)
Definition start_answered (start_now stop_now : option Outcome) (s : Worker)
    : Worker :=
  match start_now with
  | None => s
  | Some o =>
      match start_failure (name s) o with
      | None =>
          if (build_wait_timeout s <? 0)%Z && is_some (conn s)
          then notifier_fired (set_state SUBSTANTIATED s)
          else s
      | Some _ =>
          let down :=
            set_build_wait_timer None
              (set_state INSUBSTANTIATING
                 (set_substantiation_notifier []
                    (set_substantiation_build None
                       (set_missing_timer None s)))) in
          match stop_now with
          | None => down
          | Some _ =>
              set_insubstantiation_notifier []
                (set_state NOT_SUBSTANTIATED down)
          end
      end
  end.

(** The world in which a generator taken out of the parked ones runs. *)
Definition unpark (rest : list Suspended) (w : World) : World :=
  mkWorld (self w) (reactor w) (next_id w) rest (trace w).

(** Method bodies are unfolded on demand only. *)
Arguments _clearBuildWaitTimer : simpl never.
Arguments _setBuildWaitTimer : simpl never.
Arguments stopMissingTimer : simpl never.
Arguments startMissingTimer : simpl never.
Arguments _fireSubstantiationNotifier : simpl never.
Arguments _substantiate : simpl never.
Arguments insubstantiate : simpl never.
Arguments _substantiation_failed : simpl never.
Arguments _substantiate_resume : simpl never.
Arguments insubstantiate_resume : simpl never.
Arguments attached_resume : simpl never.
Arguments substantiate : simpl never.
Arguments attached : simpl never.
Arguments Notifier_notify : simpl never.
Arguments Notifier_wait : simpl never.
Arguments deliver : simpl never.
Arguments insubstantiate_now : simpl never.
Arguments _substantiation_failed_now : simpl never.
Arguments _substantiate_resume_now : simpl never.
Arguments _substantiate_now : simpl never.
Arguments insubstantiate_resume_now : simpl never.
Arguments insubstantiate_with : simpl never.

(** * Properties *)

Lemma States_eqb_spec (a b : States) : reflect (a = b) (States_eqb a b).
Proof. destruct a, b; simpl; constructor; congruence. Qed.

Lemma States_eqb_refl (a : States) : States_eqb a a = true.
Proof. now destruct a. Qed.

Lemma States_eqb_neq (a b : States) : a <> b -> States_eqb a b = false.
Proof. intros H. destruct (States_eqb_spec a b); congruence. Qed.

(** Unfolds the monad's plumbing so that a method body computes. *)
Ltac mrun :=
  unfold inlineCallbacks, defer_succeed, finish, fire, suspend, log_msg,
    when, assert, bind, ret, raise, try_except, gets, modify, emit, fresh,
    with_self, set_reactor, set_suspended in *;
  cbn [fst snd self reactor next_id suspended trace] in *.

(** ** Unsolicited connections *)

(** C4. When [attached(bot)] is called while [state] is not SUBSTANTIATING
    and [build_wait_timeout >= 0], the incoming [bot] is disconnected, the
    Deferred returned by the call has failed with [RuntimeError] (the
    protocol violation), and neither [state] nor any other attribute of the
    controller has changed; no generator is left suspended and no delayed
    call is made. *)
Theorem attached_unsolicited (w : World) (bot : Bot) :
  state (self w) <> SUBSTANTIATING ->
  (0 <= build_wait_timeout (self w))%Z ->
  attached bot w =
    (Ok (next_id w),
     mkWorld (self w) (reactor w) (S (next_id w)) (suspended w)
       (trace w ++ [ev_log msg_unsolicited;
                    ev_disconnect bot;
                    ev_fired (next_id w)
                      (Failure (RuntimeError msg_unsolicited)) (self w)]))
  /\ state (self (snd (attached bot w))) = state (self w).
Proof.
  intros Hst Hbwt.
  assert (E : attached bot w =
    (Ok (next_id w),
     mkWorld (self w) (reactor w) (S (next_id w)) (suspended w)
       (trace w ++ [ev_log msg_unsolicited;
                    ev_disconnect bot;
                    ev_fired (next_id w)
                      (Failure (RuntimeError msg_unsolicited)) (self w)]))).
  { unfold attached, _disconnect. mrun.
    rewrite (States_eqb_neq Hst).
    destruct (Z.leb_spec 0 (build_wait_timeout (self w))); [| lia].
    cbn. rewrite <- !app_assoc. reflexivity. }
  split; [exact E | now rewrite E].
Qed.

(** ** Requests while a substantiation is pending *)

(** C9. [substantiate(wfb, build)] called in state SUBSTANTIATING or
    INSUBSTANTIATING_SUBSTANTIATING only registers a new waiter on the
    substantiation notifier and returns it: [substantiation_build] keeps its
    value ([build] is dropped), the missing timer and the reactor's delayed
    calls are untouched, and [state] is unchanged. *)
Theorem substantiate_while_pending (w : World) (wfb : WorkerForBuilder)
    (build : Build) :
  state (self w) = SUBSTANTIATING
  \/ state (self w) = INSUBSTANTIATING_SUBSTANTIATING ->
  let w' := snd (substantiate wfb build w) in
  substantiate wfb build w =
    (Ok (next_id w),
     mkWorld
       (set_substantiation_notifier
          (_substantiation_notifier (self w) ++ [next_id w]) (self w))
       (reactor w) (S (next_id w)) (suspended w)
       (trace w ++ [ev_log "substantiating worker"]))
  /\ substantiation_build (self w') = substantiation_build (self w)
  /\ missing_timer (self w') = missing_timer (self w)
  /\ build_wait_timer (self w') = build_wait_timer (self w)
  /\ reactor w' = reactor w
  /\ state (self w') = state (self w).
Proof.
  intros Hst w'.
  assert (E : substantiate wfb build w =
    (Ok (next_id w),
     mkWorld
       (set_substantiation_notifier
          (_substantiation_notifier (self w) ++ [next_id w]) (self w))
       (reactor w) (S (next_id w)) (suspended w)
       (trace w ++ [ev_log "substantiating worker"]))).
  { unfold substantiate, Notifier_wait. mrun.
    destruct Hst as [-> | ->]; reflexivity. }
  subst w'. rewrite E. cbn. repeat split; exact E.
Qed.

(** ** The idle (build-wait) timer *)

Lemma set_build_wait_timer_same (s : Worker) :
  set_build_wait_timer (build_wait_timer s) s = s.
Proof. now destruct s. Qed.

Lemma clearBuildWaitTimer_spec (w : World) :
  exists rs,
    _clearBuildWaitTimer w =
      (Ok tt, mkWorld (set_build_wait_timer None (self w)) rs (next_id w)
                (suspended w) (trace w))
    /\ incl rs (reactor w).
Proof.
  unfold _clearBuildWaitTimer, active, cancel. mrun.
  destruct (build_wait_timer (self w)) as [dc |] eqn:Ht.
  - destruct (existsb _ (reactor w)); cbn.
    + eexists; split; [reflexivity |]. apply incl_filter.
    + eexists; split; [reflexivity |]. apply incl_refl.
  - exists (reactor w). split; [| apply incl_refl].
    rewrite <- Ht, set_build_wait_timer_same. now destruct w.
Qed.

Lemma setBuildWaitTimer_spec (w : World) :
  exists rs,
    incl rs (reactor w)
    /\ _setBuildWaitTimer w =
         if (build_wait_timeout (self w) <=? 0)%Z then
           (Ok tt, mkWorld (set_build_wait_timer None (self w)) rs (next_id w)
                     (suspended w) (trace w))
         else
           let dc := mkDelayedCall (next_id w) (build_wait_timeout (self w))
                       cb_soft_disconnect in
           (Ok tt, mkWorld (set_build_wait_timer (Some dc) (self w))
                     (rs ++ [dc]) (S (next_id w)) (suspended w) (trace w)).
Proof.
  destruct (clearBuildWaitTimer_spec w) as (rs & E & Hrs).
  exists rs. split; [exact Hrs |].
  unfold _setBuildWaitTimer, callLater. mrun. rewrite E. cbn.
  now destruct (build_wait_timeout (self w) <=? 0)%Z.
Qed.

Lemma skipn_length_app {A} (l l' : list A) :
  skipn (List.length l) (l ++ l') = l'.
Proof. induction l; cbn; auto. Qed.

Lemma emitted_app (w w' : World) (l : list Event) :
  trace w' = trace w ++ l -> emitted w w' = l.
Proof. intros E. unfold emitted. rewrite E. apply skipn_length_app. Qed.

(** C6, the claim as worded, fails: with [build_wait_timeout = 0] a worker
    that is SUBSTANTIATED and connected answers [substantiate] without
    arming the idle timer. *)
Lemma substantiate_ready_claim_fails :
  ~ substantiate_ready_claim ready_world_bwt0 wfb_idle "B2".
Proof.
  unfold substantiate_ready_claim. intros H.
  assert (H1 : state (self ready_world_bwt0) = SUBSTANTIATED)
    by (vm_compute; reflexivity).
  assert (H2 : conn (self ready_world_bwt0) <> None)
    by (vm_compute; discriminate).
  specialize (H H1 H2). cbv zeta in H.
  destruct H as (Harmed & _).
  apply Harmed. vm_compute. reflexivity.
Qed.

(** C6, amended. [substantiate(wfb, build)] called with [state] SUBSTANTIATED
    and a connection returns a Deferred that has already fired with [True]
    and leaves [state] unchanged.  It drops the idle timer it held; it arms
    a new one, for [build_wait_timeout] seconds and calling
    [_soft_disconnect], exactly when [build_wait_timeout > 0]; when
    [build_wait_timeout <= 0] no idle timer is armed and no delayed call is
    added. *)
Theorem substantiate_when_ready (w : World) (wfb : WorkerForBuilder)
    (build : Build) :
  state (self w) = SUBSTANTIATED ->
  conn (self w) <> None ->
  let r := substantiate wfb build w in
  let w' := snd r in
  let bwt := build_wait_timeout (self w) in
  (exists d, fst r = Ok d
             /\ In (ev_fired d Success (self w')) (emitted w w'))
  /\ state (self w') = state (self w)
  /\ ((0 < bwt)%Z ->
      let dc := mkDelayedCall (next_id w) bwt cb_soft_disconnect in
      build_wait_timer (self w') = Some dc /\ In dc (reactor w'))
  /\ ((bwt <= 0)%Z ->
      build_wait_timer (self w') = None
      /\ incl (reactor w') (reactor w)).
Proof.
  intros Hst Hconn r w' bwt. subst r w' bwt.
  unfold substantiate. mrun. unfold emitted.
  rewrite Hst. cbn.
  destruct (conn (self w)) as [c |] eqn:Hc; [| congruence]. cbn.
  match goal with
  | |- context [_setBuildWaitTimer ?x] =>
      destruct (setBuildWaitTimer_spec x) as (rs & Hrs & E); rewrite E
  end.
  cbn in *.
  destruct (Z.leb_spec (build_wait_timeout (self w)) 0) as [Hle | Hgt]; cbn;
    rewrite <- app_assoc, skipn_length_app; cbn.
  all: repeat split; try lia; try assumption; try reflexivity;
    try (eexists; split; [reflexivity | right; now left]);
    try (apply in_or_app; right; now left).
Qed.

(** C6, amended: the theorem at a connected worker with a ten-minute idle
    grace. *)
Lemma substantiate_when_ready_witness :
  let w := boot (set_conn (Some "bot"%string)
                   (set_state SUBSTANTIATED
                      (reconfigService "latent" 600 120 [] []))) in
  build_wait_timer (self (snd (substantiate wfb_idle "B2" w)))
  = Some (mkDelayedCall 0 600 cb_soft_disconnect).
Proof.
  intros w.
  exact (proj1 (proj1 (proj2 (proj2
    (substantiate_when_ready w wfb_idle "B2" eq_refl
       ltac:(discriminate)))) ltac:(reflexivity))).
Defined.

(** C7. [buildFinished(wfb)], called as its assertion requires with a [wfb]
    that is no longer busy:
    - if some builder is still busy, the controller and the reactor's
      delayed calls are unchanged (no timer armed, nothing scheduled);
    - otherwise, if [build_wait_timeout = 0], a call of [_soft_disconnect]
      with delay 0 is handed to the reactor;
    - if [build_wait_timeout > 0], [build_wait_timer] holds a new delayed
      call of [_soft_disconnect] after [build_wait_timeout] seconds;
    - if [build_wait_timeout < 0], no timer is held, no delayed call is
      added and [state] is unchanged.
    In every case the only call made to a collaborator is the inherited
    [buildFinished]. *)
Theorem buildFinished_idle_policy (w : World) (wfb : WorkerForBuilder) :
  isBusy wfb = false ->
  let r := buildFinished wfb w in
  let w' := snd r in
  let bwt := build_wait_timeout (self w) in
  fst r = Ok tt
  /\ emitted w w' = [ev_base_buildFinished wfb]
  /\ state (self w') = state (self w)
  /\ (building (self w) <> [] ->
      self w' = self w /\ reactor w' = reactor w)
  /\ (building (self w) = [] -> bwt = 0%Z ->
      self w' = self w
      /\ reactor w' =
           reactor w ++ [mkDelayedCall (next_id w) 0 cb_soft_disconnect])
  /\ (building (self w) = [] -> (0 < bwt)%Z ->
      let dc := mkDelayedCall (next_id w) bwt cb_soft_disconnect in
      build_wait_timer (self w') = Some dc /\ In dc (reactor w'))
  /\ (building (self w) = [] -> (bwt < 0)%Z ->
      build_wait_timer (self w') = None
      /\ incl (reactor w') (reactor w)).
Proof.
  intros Hbusy r w' bwt. subst r w' bwt.
  destruct (setBuildWaitTimer_spec w) as (rs & Hrs & E).
  unfold buildFinished, callLater. mrun. unfold emitted.
  rewrite Hbusy. cbn.
  destruct (building (self w)) as [| b bs] eqn:Hb; cbn.
  - destruct (Z.eqb_spec (build_wait_timeout (self w)) 0) as [H0 | H0]; cbn.
    + rewrite skipn_length_app.
      repeat split; try congruence; try lia.
    + rewrite E.
      destruct (Z.leb_spec (build_wait_timeout (self w)) 0); cbn;
        rewrite skipn_length_app;
        repeat split; try congruence; try lia; try assumption;
        try (apply in_or_app; right; now left).
  - rewrite skipn_length_app.
    repeat split; try congruence; try lia.
Qed.

(** C7: the theorem at an idle worker with the default ten-minute grace. *)
Lemma buildFinished_idle_policy_witness :
  let w := boot (set_state SUBSTANTIATED
                   (reconfigService "latent" default_build_wait_timeout 120
                      [] [("builder"%string, wfb_idle)])) in
  build_wait_timer (self (snd (buildFinished wfb_idle w)))
  = Some (mkDelayedCall 0 600 cb_soft_disconnect).
Proof.
  intros w.
  pose proof (buildFinished_idle_policy w wfb_idle eq_refl) as H.
  destruct H as (_ & _ & _ & _ & _ & H & _).
  exact (proj1 (H eq_refl ltac:(reflexivity))).
Defined.

(** ** Notifiers *)

(** What delivering [r] to the waiters [l] does to a world: the controller,
    the reactor and the identity supply are untouched; every event added is
    the firing of a Deferred with [r], seen from the controller as it is;
    and every waiter is among them. *)
Lemma deliver_spec (r : Result) (d : Deferred) (w : World) :
  exists sus evs,
    deliver r d w =
      (Ok tt, mkWorld (self w) (reactor w) (next_id w) sus (trace w ++ evs))
    /\ Forall (fun e => exists d', e = ev_fired d' r (self w)) evs
    /\ In (ev_fired d r (self w)) evs.
Proof.
  unfold deliver. mrun.
  destruct (take_suspended d (suspended w)) as [[s rest] |].
  - destruct (frame s); cbn.
    1-3: exists (suspended w), [ev_fired d r (self w)];
      repeat split; [repeat constructor; eauto | now left].
    exists rest, [ev_fired d r (self w); ev_fired (returns s) r (self w)].
    rewrite <- app_assoc. cbn.
    repeat split; [repeat constructor; eauto | now left].
  - exists (suspended w), [ev_fired d r (self w)].
    repeat split; [repeat constructor; eauto | now left].
Qed.

Lemma for_each_deliver_spec (r : Result) (l : list Deferred) (w : World) :
  exists sus evs,
    for_each l (deliver r) w =
      (Ok tt, mkWorld (self w) (reactor w) (next_id w) sus (trace w ++ evs))
    /\ Forall (fun e => exists d', e = ev_fired d' r (self w)) evs
    /\ (forall d, In d l -> In (ev_fired d r (self w)) evs).
Proof.
  revert w. induction l as [| d l IH]; intros w; cbn [for_each].
  - exists (suspended w), []. rewrite app_nil_r.
    unfold ret. destruct w; cbn. repeat split; [constructor | intros ? []].
  - destruct (deliver_spec r d w) as (sus1 & evs1 & E1 & F1 & I1).
    unfold bind. rewrite E1.
    destruct (IH (mkWorld (self w) (reactor w) (next_id w) sus1
                    (trace w ++ evs1))) as (sus2 & evs2 & E2 & F2 & I2).
    rewrite E2. cbn in *.
    exists sus2, (evs1 ++ evs2). rewrite app_assoc.
    repeat split.
    + apply Forall_app; split; assumption.
    + intros d' [<- | Hin]; apply in_or_app; [left | right]; auto.
Qed.

Lemma Notifier_bool_nil (n : Notifier) : Notifier_bool n = false <-> n = [].
Proof. destruct n; cbn; split; congruence. Qed.

(** [_fireSubstantiationNotifier] in full: without waiters it only logs;
    with waiters it first clears [substantiation_build], then empties the
    notifier and fires every waiter with [result]. *)
Lemma fireSubstantiationNotifier_spec (result : Result) (w : World) :
  (_substantiation_notifier (self w) = [] /\
   _fireSubstantiationNotifier result w =
     (Ok tt, mkWorld (self w) (reactor w) (next_id w) (suspended w)
               (trace w ++ [ev_log "No substantiation deferred"])))
  \/
  (_substantiation_notifier (self w) <> [] /\
   exists sus msg evs,
     let s1 := set_substantiation_notifier []
                 (set_substantiation_build None (self w)) in
     _fireSubstantiationNotifier result w =
       (Ok tt, mkWorld s1 (reactor w) (next_id w) sus
                 (trace w ++ ev_log msg :: evs))
     /\ Forall (fun e => exists d, e = ev_fired d result s1) evs
     /\ (forall d, In d (_substantiation_notifier (self w)) ->
                   In (ev_fired d result s1) evs)).
Proof.
  unfold _fireSubstantiationNotifier, Notifier_notify. mrun.
  destruct (_substantiation_notifier (self w)) as [| d0 l] eqn:Hn; cbn.
  - left. split; reflexivity.
  - right. split; [discriminate |].
    match goal with
    | |- context [for_each ?l (deliver ?r) ?x] =>
        destruct (for_each_deliver_spec r l x) as (sus & evs & E & F & I)
    end.
    cbn in E, F, I.
    exists sus. eexists. exists evs.
    rewrite Hn in *. rewrite E. rewrite <- app_assoc. cbn.
    repeat split; assumption.
Qed.

(** C10. Whatever [result] the substantiation notifier is fired with
    (success, a failure to substantiate, a cancellation), every waiter is
    handed that result by a firing at which [substantiation_build] is
    already [None]; no other firing takes place; and when there was a waiter
    to deliver to, [substantiation_build] is [None] afterwards. *)
Theorem fire_clears_pending_build (result : Result) (w : World) :
  let w' := snd (_fireSubstantiationNotifier result w) in
  (forall d r s, In (ev_fired d r s) (emitted w w') ->
                 r = result /\ substantiation_build s = None)
  /\ (forall d, In d (_substantiation_notifier (self w)) ->
                (exists s, In (ev_fired d result s) (emitted w w'))
                /\ substantiation_build (self w') = None
                /\ _substantiation_notifier (self w') = []).
Proof.
  intros w'. subst w'. unfold emitted.
  destruct (fireSubstantiationNotifier_spec result w)
    as [(Hn & E) | (Hn & sus & msg & evs & E & F & I)]; rewrite E; cbn.
  - rewrite skipn_length_app. split.
    + intros d r s [H | []]. discriminate.
    + intros d Hd. rewrite Hn in Hd. destruct Hd.
  - rewrite skipn_length_app. split.
    + intros d r s [H | H]; [discriminate |].
      rewrite Forall_forall in F. destruct (F _ H) as (d' & Heq).
      inversion Heq; subst. split; reflexivity.
    + intros d Hd. repeat split; try reflexivity.
      eexists. right. apply I, Hd.
Qed.

(** C10: the theorem at a worker that is substantiating build "B1" for one
    waiter. *)
Lemma fire_clears_pending_build_witness :
  let w := run (boot (reconfigService "latent" 600 120 [] []))
               [call_substantiate wfb_idle "B1"] in
  substantiation_build (self w) = Some "B1"%string
  /\ substantiation_build
       (self (snd (_fireSubstantiationNotifier Success w))) = None.
Proof.
  intros w. split; [vm_compute; reflexivity |].
  assert (H1 : In 1 (_substantiation_notifier (self w)))
    by (vm_compute; now left).
  exact (proj1 (proj2 (proj2 (fire_clears_pending_build Success w) 1 H1))).
Defined.

(** ** Entry segments, in full *)

Lemma set_missing_timer_same (s : Worker) :
  set_missing_timer (missing_timer s) s = s.
Proof. now destruct s. Qed.

Lemma stopMissingTimer_spec (w : World) :
  exists rs,
    stopMissingTimer w =
      (Ok tt, mkWorld (set_missing_timer None (self w)) rs (next_id w)
                (suspended w) (trace w))
    /\ incl rs (reactor w).
Proof.
  unfold stopMissingTimer, active, cancel. mrun.
  destruct (missing_timer (self w)) as [dc |] eqn:Ht.
  - destruct (existsb _ (reactor w)); cbn.
    + eexists; split; [reflexivity |]. apply incl_filter.
    + eexists; split; [reflexivity |]. apply incl_refl.
  - exists (reactor w). split; [| apply incl_refl].
    rewrite <- Ht, set_missing_timer_same. now destruct w.
Qed.

(** [insubstantiate] on a worker that is not substantiated returns at once. *)
Lemma insubstantiate_not_substantiated (fast force : bool) (w : World) :
  state (self w) = NOT_SUBSTANTIATED ->
  insubstantiate fast force w =
    (Ok (next_id w),
     mkWorld (self w) (reactor w) (S (next_id w)) (suspended w)
       (trace w ++ [ev_log "insubstantiating worker";
                    ev_fired (next_id w) Success (self w)])).
Proof.
  intros Hst. unfold insubstantiate. mrun. rewrite Hst. cbn.
  now rewrite <- app_assoc.
Qed.

(** [insubstantiate] during a tear-down joins the waiters of the
    insubstantiation notifier. *)
Lemma insubstantiate_insubstantiating (fast force : bool) (w : World) :
  state (self w) = INSUBSTANTIATING ->
  insubstantiate fast force w =
    (Ok (next_id w),
     mkWorld
       (set_insubstantiation_notifier
          (_insubstantiation_notifier (self w) ++ [S (next_id w)]) (self w))
       (reactor w) (S (S (next_id w)))
       (mkSuspended (S (next_id w)) at_insubstantiation_wait (next_id w)
          :: suspended w)
       (trace w ++ [ev_log "insubstantiating worker"])).
Proof.
  intros Hst. unfold insubstantiate, Notifier_wait. mrun. rewrite Hst.
  reflexivity.
Qed.

(** [insubstantiate] on a worker that is up or coming up starts the
    tear-down: it records whether a substantiation must be cancelled, moves
    to INSUBSTANTIATING (or INSUBSTANTIATING_SUBSTANTIATING when forced),
    drops the idle timer and asks the driver to stop the instance. *)
Lemma insubstantiate_tear_down (fast force : bool) (w : World) :
  state (self w) = SUBSTANTIATING \/ state (self w) = SUBSTANTIATED ->
  exists rs,
    incl rs (reactor w)
    /\ insubstantiate fast force w =
         (Ok (next_id w),
          mkWorld
            (set_build_wait_timer None
               (set_state (if force then INSUBSTANTIATING_SUBSTANTIATING
                           else INSUBSTANTIATING) (self w)))
            rs (S (S (next_id w)))
            (mkSuspended (S (next_id w))
               (at_stop_instance (States_eqb (state (self w)) SUBSTANTIATING))
               (next_id w) :: suspended w)
            (trace w ++ [ev_log "insubstantiating worker";
                         ev_stop_instance fast (S (next_id w))])).
Proof.
  intros Hst. unfold insubstantiate, stop_instance. mrun.
  destruct Hst as [Hst | Hst]; rewrite Hst; cbn;
    match goal with
    | |- context [_clearBuildWaitTimer ?x] =>
        destruct (clearBuildWaitTimer_spec x) as (rs & E & Hrs)
    end;
    exists rs; (split; [exact Hrs |]);
    rewrite E; cbn; now rewrite <- app_assoc.
Qed.

(** [insubstantiate] while a substantiation is queued behind a tear-down
    cancels the queued substantiation and joins the waiters of the
    tear-down. *)
Lemma insubstantiate_queued (fast force : bool) (w : World) :
  state (self w) = INSUBSTANTIATING_SUBSTANTIATING ->
  exists s1 sus evs,
    insubstantiate fast force w =
      (Ok (next_id w),
       mkWorld
         (set_insubstantiation_notifier
            (_insubstantiation_notifier (self w) ++ [S (next_id w)]) s1)
         (reactor w) (S (S (next_id w)))
         (mkSuspended (S (next_id w)) at_insubstantiation_wait (next_id w)
            :: sus)
         (trace w ++ ev_log "insubstantiating worker" :: evs))
    /\ state s1 = INSUBSTANTIATING
    /\ conn s1 = conn (self w)
    /\ missing_timer s1 = missing_timer (self w)
    /\ build_wait_timer s1 = build_wait_timer (self w)
    /\ _insubstantiation_notifier s1 = _insubstantiation_notifier (self w)
    /\ (forall d r s, In (ev_fired d r s) evs ->
          r = Failure LatentWorkerSubstantiatiationCancelled).
Proof.
  intros Hst. unfold insubstantiate, Notifier_wait. mrun. rewrite Hst. cbn.
  match goal with
  | |- context [_fireSubstantiationNotifier ?r ?x] =>
      destruct (fireSubstantiationNotifier_spec r x)
        as [(Hn & E) | (Hn & sus & msg & evs & E & F & I)]; rewrite E
  end; cbn.
  - do 3 eexists. rewrite <- app_assoc. cbn. split; [reflexivity |].
    cbn. repeat split.
    intros d r s [H | []]. discriminate.
  - do 3 eexists. rewrite <- app_assoc. cbn. split; [reflexivity |].
    cbn. repeat split.
    intros d r s [H | H]; [discriminate |].
    rewrite Forall_forall in F. destruct (F _ H) as (d' & Heq).
    now inversion Heq.
Qed.

(** ** A driver that does not start the instance *)

Ltac use_fire :=
  match goal with
  | |- context [_fireSubstantiationNotifier ?r ?x] =>
      let Hn := fresh "Hn" in
      let E := fresh "E" in
      let F := fresh "F" in
      let I := fresh "I" in
      destruct (fireSubstantiationNotifier_spec r x)
        as [(Hn & E) | (Hn & ?sus & ?msg & ?evs & E & F & I)];
      rewrite E; clear E; cbn in *
  end.

Ltac use_stop_missing :=
  match goal with
  | |- context [stopMissingTimer ?x] =>
      let E := fresh "E" in
      destruct (stopMissingTimer_spec x) as (?rs & E & ?Hrs);
      rewrite E; clear E; cbn in *
  end.

(** C5, the claim as worded, fails: when [insubstantiate()] has already
    moved the worker out of SUBSTANTIATING, a [False] from [start_instance]
    reaches no waiter of the substantiation notifier. *)
Lemma start_failure_claim_fails :
  ~ start_failure_claim cancelled_while_starting false (Returned false).
Proof.
  unfold start_failure_claim. intros H.
  assert (H0 : start_failure (name (self cancelled_while_starting))
                 (Returned false) <> None) by discriminate.
  specialize (H H0). cbv zeta in H. destruct H as (_ & Hw & _).
  assert (H1 : In 1 (_substantiation_notifier (self cancelled_while_starting)))
    by (vm_compute; now left).
  destruct (Hw 1 H1) as (r & s & Hin & _).
  vm_compute in Hin. destruct Hin as [Hin | []]. discriminate.
Qed.
Ltac use_insubstantiate :=
  match goal with
  | |- context [insubstantiate ?f ?g ?x] =>
      first
        [ rewrite (@insubstantiate_not_substantiated f g x)
            by (cbn; congruence)
        | rewrite (@insubstantiate_insubstantiating f g x)
            by (cbn; congruence)
        | let E := fresh "E" in
          destruct (@insubstantiate_tear_down f g x
                      ltac:(cbn; (left; congruence) || (right; congruence)))
            as (?rs & ?Hrs & E);
          rewrite E; clear E
        | let E := fresh "E" in
          destruct (@insubstantiate_queued f g x ltac:(cbn; congruence))
            as (?s1 & ?sus & ?evs & E & ?Hs1 & ?Hc1 & ?Hm1 & ?Hb1 & ?Hi1 & ?Hev);
          rewrite E; clear E ];
      cbn in *
  end.

Ltac find_in :=
  match goal with
  | |- In _ (_ :: _) => (left; reflexivity) || (right; find_in)
  | |- In _ (_ ++ _) => apply in_or_app; ((left; find_in) || (right; find_in))
  | |- In _ _ => solve [eauto]
  end.

Ltac in_cases H :=
  repeat match type of H with
         | In _ (_ :: _) => destruct H as [H | H]; [try discriminate H |]
         | In _ (_ ++ _) => apply in_app_or in H; destruct H as [H | H]
         | In _ [] => destruct H
         end.

Ltac trace_norm :=
  unfold emitted; cbn [trace self];
  repeat rewrite <- app_assoc; rewrite ?skipn_length_app; cbn [app].

(** C5, amended. When [start_instance(build)] answers [False] or raises,
    [_substantiate] cancels the missing timer and calls [insubstantiate()],
    whatever the state.  If the worker is still SUBSTANTIATING, every waiter
    of the substantiation notifier receives the failure (a
    [LatentWorkerFailedToSubstantiate] when the answer was [False], the
    driver's own exception when it raised), and the tear-down starts: the
    state becomes INSUBSTANTIATING and [stop_instance] is called.  If the
    worker has left SUBSTANTIATING meanwhile, the failure is delivered to
    nobody: the only results handed out are the completion of
    [insubstantiate()] and the cancellation of a queued substantiation. *)
Theorem start_failure_handling (w : World) (dont_wait_to_attach : bool)
    (o : Outcome) (e : Exn) :
  start_failure (name (self w)) o = Some e ->
  let w' := snd (_substantiate_resume dont_wait_to_attach o w) in
  missing_timer (self w') = None
  /\ In (ev_log "insubstantiating worker") (emitted w w')
  /\ (state (self w) = SUBSTANTIATING ->
      (forall d, In d (_substantiation_notifier (self w)) ->
                 exists s, In (ev_fired d (Failure e) s) (emitted w w'))
      /\ state (self w') = INSUBSTANTIATING
      /\ exists d, In (ev_stop_instance false d) (emitted w w'))
  /\ (state (self w) <> SUBSTANTIATING ->
      forall d r s, In (ev_fired d r s) (emitted w w') ->
        r = Success \/ r = Failure LatentWorkerSubstantiatiationCancelled).
Proof.
  intros He w'. subst w'.
  assert (E0 : _substantiate_resume dont_wait_to_attach o w =
               (stopMissingTimer ;; _substantiation_failed (Failure e))%monad w).
  { unfold _substantiate_resume. mrun.
    destruct o as [[|] | e']; cbn in He; inversion He; subst; reflexivity. }
  rewrite E0. clear E0 He. unfold bind.
  use_stop_missing.
  unfold _substantiation_failed. mrun. cbn.
  destruct (state (self w)) eqn:Hst; cbn;
    try use_fire; use_insubstantiate;
    match goal with
    | |- context [if ?b then _ else _] => destruct b
    end; cbn; trace_norm;
    (split; [reflexivity || assumption |]);
    (split; [find_in |]);
    (split; [intros Hs; try discriminate Hs | intros Hs; try congruence]).
  all: try (intros d r s Hin; in_cases Hin;
            try (inversion Hin; subst; now left);
            right; eapply Hev; eassumption).
  all: split; [| split; [reflexivity | eexists; find_in]].
  all: intros d Hd.
  1-2: rewrite Hn in Hd; destruct Hd.
  all: eexists; right; apply in_or_app; left; apply I; exact Hd.
Qed.

(** C5, amended: the theorem for a driver that answers [False] while the
    worker is substantiating build B1 for one waiter. *)
Lemma start_failure_handling_witness :
  let w := run (boot (reconfigService "latent" 600 120 [] []))
               [call_substantiate wfb_idle "B1"] in
  let w' := snd (_substantiate_resume false (Returned false) w) in
  missing_timer (self w) <> None
  /\ missing_timer (self w') = None
  /\ state (self w') = INSUBSTANTIATING.
Proof.
  intros w w'.
  pose proof (@start_failure_handling w false (Returned false) _ eq_refl)
    as (Hm & _ & Hs & _).
  assert (H1 : state (self w) = SUBSTANTIATING) by (vm_compute; reflexivity).
  split; [vm_compute; discriminate |]. split; [exact Hm |].
  exact (proj1 (proj2 (Hs H1))).
Defined.

(** ** Generated passwords *)

Lemma alphabet_length : List.length (ascii_letters ++ digits) = 62.
Proof. reflexivity. Qed.

(** Every character occurs in the alphabet once if it is a letter or a
    digit, and not at all otherwise. *)
Lemma alphabet_count (c : ascii) :
  count_occ ascii_dec (ascii_letters ++ digits) c = if alnum c then 1 else 0.
Proof.
  destruct c as [[] [] [] [] [] [] [] []]; vm_compute; reflexivity.
Qed.

Lemma alphabet_alnum (c : ascii) :
  In c (ascii_letters ++ digits) -> alnum c = true.
Proof.
  intros H. apply (count_occ_In ascii_dec) in H.
  rewrite alphabet_count in H. destruct (alnum c); [reflexivity | lia].
Qed.

Lemma nth_map_seq {A} (f : nat -> A) (n i : nat) (d : A) :
  i < n -> nth i (map f (seq 0 n)) d = f i.
Proof.
  intros H. rewrite (nth_indep _ d (f 0)) by now rewrite length_map, length_seq.
  rewrite (map_nth f (seq 0 n) 0 i), seq_nth by assumption. reflexivity.
Qed.

Lemma length_string_of_list_ascii (l : list ascii) :
  String.length (string_of_list_ascii l) = List.length l.
Proof. induction l; cbn; congruence. Qed.

(** C8. Whatever the state of the random generator, [getRandomPass] returns
    a string of exactly 20 characters; the character at each position is
    the element of the 62-character alphabet at the index drawn for that
    position, hence one of [[A-Za-z0-9]]; and the alphabet lists every
    letter and digit exactly once and nothing else, so that an index drawn
    uniformly below 62 selects each of them with the same frequency, one
    in 62. *)
Theorem getRandomPass_spec (randbelow : nat -> nat -> nat) (k0 : nat) :
  (forall k n, 0 < n -> randbelow k n < n) ->
  let pass := list_ascii_of_string (getRandomPass randbelow k0) in
  String.length (getRandomPass randbelow k0) = 20
  /\ Forall (fun c => alnum c = true) pass
  /\ (forall i, i < 20 ->
        nth i pass Ascii.zero =
        nth (randbelow (k0 + i) 62) (ascii_letters ++ digits) Ascii.zero)
  /\ List.length (ascii_letters ++ digits) = 62
  /\ (forall c, count_occ ascii_dec (ascii_letters ++ digits) c
                = if alnum c then 1 else 0).
Proof.
  intros Hr pass. subst pass. unfold getRandomPass.
  rewrite list_ascii_of_string_of_list_ascii.
  split; [| split; [| split; [| split]]].
  - now rewrite length_string_of_list_ascii, length_map, length_seq.
  - apply Forall_forall. intros c Hc. apply in_map_iff in Hc.
    destruct Hc as (i & <- & _). apply alphabet_alnum.
    unfold random_choice. apply nth_In. apply Hr. rewrite alphabet_length. lia.
  - intros i Hi. rewrite nth_map_seq by assumption.
    unfold random_choice. now rewrite alphabet_length.
  - exact alphabet_length.
  - exact alphabet_count.
Qed.

(** C8: the theorem for a generator that walks through the residues. *)
Lemma getRandomPass_spec_witness :
  String.length (getRandomPass (fun k n => (7 * k + 3) mod n) 0) = 20.
Proof.
  refine (proj1 (@getRandomPass_spec (fun k n => (7 * k + 3) mod n) 0 _)).
  intros k n Hn. apply Nat.mod_upper_bound. lia.
Defined.


(** ** The pending build across a cancelled substantiation *)

(** C2 fails on the code.  A substantiation is cancelled by
    [insubstantiate()], a new [substantiate] is queued behind the tear-down
    (state INSUBSTANTIATING_SUBSTANTIATING, pending build B2, invariant
    intact), and when [stop_instance] completes the cancellation is
    delivered to both waiters and wipes [substantiation_build]: the
    controller is left in SUBSTANTIATING with no pending build, and
    [start_instance] has been called with [None]. *)
Lemma requeue_after_cancel_loses_build :
  let w := run fresh_world requeue_after_cancel in
  let w' := run fresh_world requeue_after_cancel_stopped in
  (state (self w) = INSUBSTANTIATING_SUBSTANTIATING
   /\ substantiation_build (self w) = Some "B2"%string
   /\ pending_build_invariant (self w))
  /\ state (self w') = SUBSTANTIATING
  /\ substantiation_build (self w') = None
  /\ ~ pending_build_invariant (self w')
  /\ In (ev_start_instance None 9) (emitted w w')
  /\ firings 7 (emitted w w')
     = [(Failure LatentWorkerSubstantiatiationCancelled,
         set_state INSUBSTANTIATING_SUBSTANTIATING (self w'))].
Proof.
  vm_compute. repeat split; try reflexivity.
  - intros _ H. discriminate H.
  - intros H. apply H; [left |]; reflexivity.
  - do 3 right. left. reflexivity.
Qed.

(** ** The completion of [insubstantiate] *)

(** C1, the claim as worded, fails: a build that arrives while the instance
    is being stopped is queued, and the Deferred returned by
    [insubstantiate()] fires with the controller in SUBSTANTIATING, still
    connected, with a pending build and the missing timer armed. *)
Lemma insubstantiate_claim_fails :
  ~ insubstantiate_claim fresh_world bring_up false false
      rebuild_during_tear_down.
Proof.
  unfold insubstantiate_claim. intros H. cbv zeta in H.
  assert (E : fst (insubstantiate false false (run fresh_world bring_up))
              = Ok 6) by (vm_compute; reflexivity).
  specialize (H 6 E Success). vm_compute in H.
  destruct (H _ (or_introl eq_refl)) as (Hst & _). discriminate Hst.
Qed.

(** ** Witnesses for the request-surface theorems *)

(** C4: the theorem at a freshly configured worker, which is not
    substantiating and has a ten-minute [build_wait_timeout]. *)
Lemma attached_unsolicited_witness :
  state (self (snd (attached "bot" fresh_world))) = NOT_SUBSTANTIATED.
Proof.
  assert (H1 : state (self fresh_world) <> SUBSTANTIATING)
    by (vm_compute; discriminate).
  assert (H2 : (0 <= build_wait_timeout (self fresh_world))%Z)
    by (vm_compute; discriminate).
  rewrite (proj2 (@attached_unsolicited fresh_world "bot" H1 H2)).
  vm_compute. reflexivity.
Defined.

(** C9: the theorem at a worker that is substantiating build B1 when a
    request for B2 comes in: B1 stays the pending build. *)
Lemma substantiate_while_pending_witness :
  let w := run fresh_world [call_substantiate wfb_idle "B1"] in
  substantiation_build (self (snd (substantiate wfb_idle "B2" w)))
  = Some "B1"%string.
Proof.
  intros w.
  assert (H : state (self w) = SUBSTANTIATING
              \/ state (self w) = INSUBSTANTIATING_SUBSTANTIATING)
    by (left; vm_compute; reflexivity).
  rewrite (proj1 (proj2 (@substantiate_while_pending w wfb_idle "B2" H))).
  vm_compute. reflexivity.
Defined.

(** ** Resumptions, in full *)

Ltac use_for_each :=
  match goal with
  | |- context [for_each ?l (deliver ?r) ?x] =>
      let E := fresh "E" in
      destruct (for_each_deliver_spec r l x) as (?sus & ?evs & E & ?F & ?I);
      rewrite E; clear E; cbn in *
  end.

Lemma set_insubstantiation_notifier_same (s : Worker) :
  set_insubstantiation_notifier (_insubstantiation_notifier s) s = s.
Proof. now destruct s. Qed.

Lemma world_eta (w : World) :
  mkWorld (self w) (reactor w) (next_id w) (suspended w) (trace w) = w.
Proof. now destruct w. Qed.

(** [_substantiate(build)] asks the driver for an instance and parks. *)
Lemma substantiate_entry_spec (build : option Build) (w : World) :
  _substantiate build w =
    (Ok (next_id w),
     mkWorld (self w) (reactor w) (S (S (next_id w)))
       (mkSuspended (S (next_id w))
          (at_start_instance
             ((build_wait_timeout (self w) <? 0)%Z && is_some (conn (self w))))
          (next_id w) :: suspended w)
       (trace w ++ [ev_start_instance build (S (next_id w))])).
Proof. unfold _substantiate, start_instance. mrun. reflexivity. Qed.

(** [if self._insubstantiation_notifier:
       self._insubstantiation_notifier.notify(True)] *)
Lemma notify_insubstantiation_spec (w : World) :
  exists sus evs,
    when (Notifier_bool (_insubstantiation_notifier (self w)))
      (Notifier_notify _insubstantiation_notifier
         set_insubstantiation_notifier Success) w =
      (Ok tt,
       mkWorld (set_insubstantiation_notifier [] (self w)) (reactor w)
         (next_id w) sus (trace w ++ evs))
    /\ Forall (fun e => exists d,
                 e = ev_fired d Success
                       (set_insubstantiation_notifier [] (self w))) evs
    /\ (forall d, In d (_insubstantiation_notifier (self w)) ->
          In (ev_fired d Success
                (set_insubstantiation_notifier [] (self w))) evs).
Proof.
  unfold Notifier_notify. mrun.
  destruct (_insubstantiation_notifier (self w)) as [| d0 l] eqn:Hn; cbn.
  - exists (suspended w), []. rewrite app_nil_r, <- Hn.
    rewrite set_insubstantiation_notifier_same, world_eta.
    repeat split; [constructor | intros ? []].
  - use_for_each. exists sus, evs. rewrite Hn in I.
    repeat split; assumption.
Qed.

(** [if notify_cancel and self._substantiation_notifier:
       self._fireSubstantiationNotifier(Failure(Cancelled))] *)
Lemma notify_cancel_spec (notify_cancel : bool) (w : World) :
  exists s1 sus evs,
    when (notify_cancel && Notifier_bool (_substantiation_notifier (self w)))
      (_fireSubstantiationNotifier
         (Failure LatentWorkerSubstantiatiationCancelled)) w =
      (Ok tt, mkWorld s1 (reactor w) (next_id w) sus (trace w ++ evs))
    /\ s1 = (if notify_cancel
                && Notifier_bool (_substantiation_notifier (self w))
             then set_substantiation_notifier []
                    (set_substantiation_build None (self w))
             else self w)
    /\ (forall d r s, In (ev_fired d r s) evs ->
          r = Failure LatentWorkerSubstantiatiationCancelled).
Proof.
  mrun.
  destruct (notify_cancel && Notifier_bool (_substantiation_notifier (self w)))
    eqn:Hnc; cbn.
  - apply andb_prop in Hnc. destruct Hnc as (_ & Hb).
    use_fire.
    + rewrite Hn in Hb. discriminate Hb.
    + do 3 eexists. split; [reflexivity |]. split; [reflexivity |].
      intros d r s Hin. in_cases Hin.
      rewrite Forall_forall in F. destruct (F _ Hin) as (d' & Heq).
      now inversion Heq.
  - exists (self w), (suspended w), []. rewrite app_nil_r, world_eta.
    repeat split. intros ? ? ? [].
Qed.
Ltac mrun' :=
  unfold inlineCallbacks, defer_succeed, finish, fire, suspend, log_msg,
    assert, bind, ret, raise, try_except, gets, modify, emit, fresh,
    with_self, set_reactor, set_suspended in *;
  cbn [fst snd self reactor next_id suspended trace] in *.

Ltac use_notify_cancel :=
  cbn [fst snd self reactor next_id suspended trace];
  match goal with
  | |- context [when (?nc && _) (_fireSubstantiationNotifier _) ?x] =>
      let E := fresh "E" in
      destruct (notify_cancel_spec nc x)
        as (?s1 & ?sus & ?evs & E & ?Hs1 & ?Hev);
      cbn [self reactor next_id suspended trace] in E;
      rewrite E; clear E;
      cbn [fst snd self reactor next_id suspended trace] in *
  end.

Ltac use_notify_insubstantiation :=
  cbn [fst snd self reactor next_id suspended trace];
  match goal with
  | |- context [when _ (Notifier_notify _insubstantiation_notifier _ _) ?x] =>
      let E := fresh "E" in
      destruct (notify_insubstantiation_spec x) as (?sus & ?evs & E & ?F & ?I);
      cbn [self reactor next_id suspended trace] in E;
      rewrite E; clear E;
      cbn [fst snd self reactor next_id suspended trace] in *
  end.

(** The attributes that delivering a cancellation leaves alone. *)
Lemma after_cancel_fields (b : bool) (s : Worker) :
  let s1 := if b then set_substantiation_notifier []
                        (set_substantiation_build None s)
            else s in
  state s1 = state s
  /\ conn s1 = conn s
  /\ missing_timer s1 = missing_timer s
  /\ build_wait_timer s1 = build_wait_timer s
  /\ substantiation_build s1 = (if b then None else substantiation_build s).
Proof. destruct b; cbn; repeat split. Qed.

(** [insubstantiate] once [stop_instance] has finished, whatever its
    outcome [o], on a worker that is still tearing down: the Deferred [out]
    that the call returned fires with success as the very last thing; by
    then the state is NOT_SUBSTANTIATED, or SUBSTANTIATING with a new
    [start_instance] under way when a substantiation was queued or forced;
    [conn], [missing_timer] and [build_wait_timer] are as they were;
    [substantiation_build] is wiped exactly when a cancellation was
    delivered; and every Deferred that fires with success on the way (the
    waiters of the insubstantiation notifier) sees the same state. *)
Lemma insubstantiate_stopped (notify_cancel : bool) (o : Outcome)
    (out : Deferred) (w : World) :
  state (self w) = INSUBSTANTIATING
  \/ state (self w) = INSUBSTANTIATING_SUBSTANTIATING ->
  let w' := snd (finish out (insubstantiate_resume notify_cancel o) w) in
  exists evs,
    trace w' = trace w ++ evs ++ [ev_fired out Success (self w')]
    /\ state (self w') =
         (if States_eqb (state (self w)) INSUBSTANTIATING
          then NOT_SUBSTANTIATED else SUBSTANTIATING)
    /\ (state (self w) = INSUBSTANTIATING_SUBSTANTIATING ->
        exists d,
          In (ev_start_instance (substantiation_build (self w')) d) evs)
    /\ conn (self w') = conn (self w)
    /\ missing_timer (self w') = missing_timer (self w)
    /\ build_wait_timer (self w') = build_wait_timer (self w)
    /\ substantiation_build (self w') =
         (if notify_cancel
             && Notifier_bool (_substantiation_notifier (self w))
          then None else substantiation_build (self w))
    /\ (forall d s, In (ev_fired d Success s) evs ->
          state s = state (self w')).
Proof.
  intros Hst w'. subst w'.
  unfold insubstantiate_resume. mrun'.
  destruct o as [v | e];
    cbn [fst snd self reactor next_id suspended trace].
  all: assert (Hin : state_in (state (self w))
                  [INSUBSTANTIATING; INSUBSTANTIATING_SUBSTANTIATING] = true)
    by (destruct Hst as [-> | ->]; reflexivity).
  all: rewrite Hin;
    cbn [fst snd self reactor next_id suspended trace];
    use_notify_cancel.
  all: destruct (after_cancel_fields
              (notify_cancel && Notifier_bool (_substantiation_notifier (self w)))
              (self w)) as (A1 & A2 & A3 & A4 & A5).
  all: cbv zeta in A1, A2, A3, A4, A5; rewrite <- Hs1 in A1, A2, A3, A4, A5.
  all: rewrite A1.
  all: destruct Hst as [Hst | Hst]; rewrite Hst; cbn [States_eqb];
    use_notify_insubstantiation;
    rewrite ?substantiate_entry_spec;
    cbn [fst snd self reactor next_id suspended trace];
    repeat rewrite <- app_assoc.
  all: eexists;
    (split; [f_equal; repeat rewrite app_assoc; reflexivity |]).
  all: cbn [state conn missing_timer build_wait_timer substantiation_build
              set_insubstantiation_notifier set_state].
  all: repeat split; try assumption; try discriminate.
  all: try (intros _; eexists; find_in).
  all: intros d s Hd; in_cases Hd;
    try (apply Hev in Hd; discriminate Hd);
    rewrite Forall_forall in F; destruct (F _ Hd) as (d' & Heq);
    inversion Heq; reflexivity.
Qed.

(** C1, amended.  The Deferred returned by [insubstantiate()] fires
    - at once, with the controller untouched, when the worker is
      NOT_SUBSTANTIATED;
    - otherwise when [stop_instance] has finished (with or without error):
      a call made in SUBSTANTIATING or SUBSTANTIATED first moves to
      INSUBSTANTIATING (INSUBSTANTIATING_SUBSTANTIATING when forced), drops
      the idle timer, calls [stop_instance] and parks without touching
      [conn], [missing_timer] or [substantiation_build]; when it is resumed
      with the worker still INSUBSTANTIATING its Deferred fires in state
      NOT_SUBSTANTIATED; when a substantiation was queued or forced
      meanwhile (INSUBSTANTIATING_SUBSTANTIATING) it fires in state
      SUBSTANTIATING, with [start_instance] called for the pending build.
    In both cases [conn], [missing_timer] and [build_wait_timer] are as
    they were when [stop_instance] finished, [substantiation_build] is
    cleared only if a cancellation was delivered, and the calls that were
    waiting on the insubstantiation notifier complete in the same state. *)
Theorem insubstantiate_completion :
  (forall fast force w,
     state (self w) = NOT_SUBSTANTIATED ->
     let r := insubstantiate fast force w in
     fst r = Ok (next_id w)
     /\ self (snd r) = self w
     /\ emitted w (snd r) =
          [ev_log "insubstantiating worker";
           ev_fired (next_id w) Success (self w)])
  /\ (forall fast force w,
        state (self w) = SUBSTANTIATING \/ state (self w) = SUBSTANTIATED ->
        let r := insubstantiate fast force w in
        let w1 := snd r in
        fst r = Ok (next_id w)
        /\ state (self w1) =
             (if force then INSUBSTANTIATING_SUBSTANTIATING
              else INSUBSTANTIATING)
        /\ build_wait_timer (self w1) = None
        /\ conn (self w1) = conn (self w)
        /\ missing_timer (self w1) = missing_timer (self w)
        /\ substantiation_build (self w1) = substantiation_build (self w)
        /\ emitted w w1 =
             [ev_log "insubstantiating worker";
              ev_stop_instance fast (S (next_id w))]
        /\ suspended w1 =
             mkSuspended (S (next_id w))
               (at_stop_instance (States_eqb (state (self w)) SUBSTANTIATING))
               (next_id w) :: suspended w)
  /\ (forall notify_cancel o d out w,
        state (self w) = INSUBSTANTIATING
        \/ state (self w) = INSUBSTANTIATING_SUBSTANTIATING ->
        let w' := snd (resume (mkSuspended d (at_stop_instance notify_cancel)
                                 out) o w) in
        exists evs,
          emitted w w' = evs ++ [ev_fired out Success (self w')]
          /\ state (self w') =
               (if States_eqb (state (self w)) INSUBSTANTIATING
                then NOT_SUBSTANTIATED else SUBSTANTIATING)
          /\ (state (self w) = INSUBSTANTIATING_SUBSTANTIATING ->
              exists d',
                In (ev_start_instance (substantiation_build (self w')) d')
                   evs)
          /\ conn (self w') = conn (self w)
          /\ missing_timer (self w') = missing_timer (self w)
          /\ build_wait_timer (self w') = build_wait_timer (self w)
          /\ substantiation_build (self w') =
               (if notify_cancel
                   && Notifier_bool (_substantiation_notifier (self w))
                then None else substantiation_build (self w))
          /\ (forall d' s, In (ev_fired d' Success s) evs ->
                state s = state (self w'))).
Proof.
  split; [| split].
  - intros fast force w Hst r. subst r.
    rewrite insubstantiate_not_substantiated by assumption.
    unfold emitted. cbn [fst snd self trace].
    now rewrite skipn_length_app.
  - intros fast force w Hst r w1. subst r w1.
    destruct (insubstantiate_tear_down fast force w Hst) as (rs & Hrs & E).
    rewrite E. unfold emitted. cbn [fst snd self trace suspended].
    rewrite skipn_length_app. now destruct force.
  - intros notify_cancel o d out w Hst.
    destruct (insubstantiate_stopped notify_cancel o out w Hst)
      as (evs & Htr & H).
    exists evs. split; [| exact H].
    apply emitted_app. exact Htr.
Qed.

(** C1, amended: the theorem at the moment the driver reports the instance
    stopped while build B2 is queued behind the tear-down. *)
Lemma insubstantiate_completion_witness :
  let w := run fresh_world
             (bring_up ++ [call_insubstantiate false false;
                           call_substantiate wfb_idle "B2"]) in
  state (self w) = INSUBSTANTIATING_SUBSTANTIATING
  /\ state (self (snd (resume (mkSuspended 7 (at_stop_instance false) 6)
                         (Returned true) w))) = SUBSTANTIATING.
Proof.
  intros w.
  assert (H : state (self w) = INSUBSTANTIATING_SUBSTANTIATING)
    by (vm_compute; reflexivity).
  split; [exact H |].
  destruct (proj2 (proj2 insubstantiate_completion) false (Returned true)
              7 6 w (or_intror H)) as (evs & _ & Hs & _).
  rewrite H in Hs. exact Hs.
Defined.

(** ** Steps of the controller, one input at a time *)

Ltac use_stop_missing_goal :=
  cbn [fst snd self reactor next_id suspended trace];
  match goal with
  | |- context [stopMissingTimer ?x] =>
      let E := fresh "E" in
      destruct (stopMissingTimer_spec x) as (?rs & E & ?Hrs);
      cbn [self reactor next_id suspended trace] in E;
      rewrite E; clear E;
      cbn [fst snd self reactor next_id suspended trace]
  end.

(** [substantiate] on a worker that is down arms the missing timer, stores
    the build, registers the caller as a waiter, moves to SUBSTANTIATING
    and asks the driver for an instance. *)
Lemma substantiate_from_down (wfb : WorkerForBuilder) (build : Build)
    (w : World) :
  state (self w) = NOT_SUBSTANTIATED ->
  let n := next_id w in
  exists s1 rs evs,
    substantiate wfb build w =
      (Ok (S n),
       mkWorld s1 rs (4 + n)
         (mkSuspended (3 + n)
            (at_start_instance
               ((build_wait_timeout (self w) <? 0)%Z
                && is_some (conn (self w))))
            (2 + n) :: suspended w)
         (trace w ++ evs ++ [ev_start_instance (Some build) (3 + n)]))
    /\ state s1 = SUBSTANTIATING
    /\ conn s1 = conn (self w)
    /\ build_wait_timeout s1 = build_wait_timeout (self w)
    /\ substantiation_build s1 = Some build
    /\ _substantiation_notifier s1
       = _substantiation_notifier (self w) ++ [S n]
    /\ (forall d r s, ~ In (ev_fired d r s) evs).
Proof.
  intros Hst n. subst n.
  unfold substantiate, startMissingTimer, callLater, Notifier_wait. mrun'.
  rewrite Hst. cbn [States_eqb andb state_in existsb orb].
  use_stop_missing_goal.
  cbn [state conn set_missing_timer set_substantiation_build
         set_substantiation_notifier set_state].
  rewrite Hst. cbn [States_eqb andb state_in existsb orb].
  rewrite substantiate_entry_spec.
  cbn [fst snd self reactor next_id suspended trace].
  do 3 eexists. split.
  - rewrite <- app_assoc. cbn [app]. 
    change (trace w ++ [ev_log "substantiating worker";
                        ev_start_instance (Some build) (S (S (S (next_id w))))])
      with (trace w ++ [ev_log "substantiating worker"]
                    ++ [ev_start_instance (Some build) (3 + next_id w)]).
    reflexivity.
  - cbn. repeat split. intros d r s [H | []]. discriminate H.
Qed.

(** A Deferred that fires resumes the generator parked on it most
    recently. *)
Lemma on_deferred_head (d : Deferred) (f : Frame) (out : Deferred)
    (o : Outcome) (w : World) (rest : list Suspended) :
  suspended w = mkSuspended d f out :: rest ->
  f <> at_insubstantiation_wait ->
  on_deferred d o w =
    resume (mkSuspended d f out) o
      (mkWorld (self w) (reactor w) (next_id w) rest (trace w)).
Proof.
  intros Hs Hf. unfold on_deferred. rewrite Hs. cbn [take_suspended awaits].
  rewrite Nat.eqb_refl. cbn [frame].
  destruct f; try congruence; unfold bind, set_suspended; reflexivity.
Qed.

(** The driver reports a started instance.  If the worker never has to be
    torn down ([build_wait_timeout < 0]) and was already connected when the
    start was requested, it is SUBSTANTIATED on the spot and the waiters
    are told; otherwise it stays as it is, waiting for [attached]. *)
Lemma start_instance_succeeded (dw : bool) (d out : Deferred) (w : World) :
  state (self w) = SUBSTANTIATING ->
  let w' := snd (resume (mkSuspended d (at_start_instance dw) out)
                   (Returned true) w) in
  next_id w' = next_id w
  /\ build_wait_timeout (self w') = build_wait_timeout (self w)
  /\ conn (self w') = conn (self w)
  /\ exists evs,
       trace w' = trace w ++ evs
       /\ ((dw && is_some (conn (self w)) = true
            /\ state (self w') = SUBSTANTIATED
            /\ (forall x, In x (_substantiation_notifier (self w)) ->
                  exists s, In (ev_fired x Success s) evs
                            /\ state s = SUBSTANTIATED))
           \/ (dw && is_some (conn (self w)) = false
               /\ self w' = self w
               /\ suspended w' = suspended w)).
Proof.
  intros Hst w'. subst w'.
  unfold resume. cbn [frame returns].
  unfold _substantiate_resume. mrun'.
  cbn [negb]. rewrite Hst. cbn [States_eqb].
  rewrite andb_true_r.
  destruct (dw && is_some (conn (self w))) eqn:Hdw;
    cbn [fst snd self reactor next_id suspended trace].
  - use_fire.
    + repeat split. eexists. split; [rewrite <- !app_assoc; reflexivity |].
      left. repeat split. intros x Hx. rewrite Hn in Hx. destruct Hx.
    + repeat split. eexists. split; [rewrite <- !app_assoc; reflexivity |].
      left. repeat split. intros x Hx.
      eexists. split; [find_in | reflexivity].
  - repeat split. eexists. split; [reflexivity |].
    right. repeat split.
Qed.

(** [attached(bot)] is let through when the worker is SUBSTANTIATING, or
    whatever the state when [build_wait_timeout < 0]: it hands over to the
    inherited [attached] and parks. *)
Lemma attached_accepted (bot : Bot) (w : World) :
  state (self w) = SUBSTANTIATING
  \/ (build_wait_timeout (self w) < 0)%Z ->
  attached bot w =
    (Ok (next_id w),
     mkWorld (self w) (reactor w) (2 + next_id w)
       (mkSuspended (S (next_id w)) (at_base_attached bot) (next_id w)
          :: suspended w)
       (trace w ++ [ev_base_attached bot (S (next_id w))])).
Proof.
  intros H. unfold attached, AbstractWorker_attached. mrun'.
  assert (E : negb (States_eqb (state (self w)) SUBSTANTIATING)
              && (0 <=? build_wait_timeout (self w))%Z = false).
  { destruct H as [-> | H]; [reflexivity |].
    destruct (Z.leb_spec 0 (build_wait_timeout (self w))); [lia |].
    apply andb_false_r. }
  rewrite E. reflexivity.
Qed.

(** The inherited [attached] has succeeded: the connection is recorded, a
    SUBSTANTIATING worker becomes SUBSTANTIATED (any other state is kept),
    and the waiters of the substantiation notifier are told of the
    success. *)
Lemma attached_succeeded (bot : Bot) (v : bool) (d out : Deferred)
    (w : World) :
  let w' := snd (resume (mkSuspended d (at_base_attached bot) out)
                   (Returned v) w) in
  next_id w' = next_id w
  /\ build_wait_timeout (self w') = build_wait_timeout (self w)
  /\ conn (self w') = Some bot
  /\ state (self w') =
       (if States_eqb (state (self w)) SUBSTANTIATING
        then SUBSTANTIATED else state (self w))
  /\ exists evs,
       trace w' = trace w ++ evs
       /\ (forall x, In x (_substantiation_notifier (self w)) ->
             exists s, In (ev_fired x Success s) evs
                       /\ state s = state (self w')).
Proof.
  intros w'. subst w'.
  unfold resume. cbn [frame returns].
  unfold attached_resume, AbstractWorker_attached_result. mrun'.
  cbn [negb].
  unfold when, ret.
  match goal with
  | |- context [if ?b then _ else _] => destruct b eqn:Hs
  end;
    match type of Hs with
    | _ = ?v => change (States_eqb (state (self w)) SUBSTANTIATING = v) in Hs
    end;
    rewrite Hs;
    cbv beta iota;
    cbn [fst snd self reactor next_id suspended trace];
    use_fire;
    repeat split;
    eexists; (split; [rewrite <- !app_assoc; reflexivity |]);
    intros x Hx;
    try (rewrite Hn in Hx; destruct Hx);
    eexists; (split; [find_in | reflexivity]).
Qed.

Lemma step_call {A} (m : M A) (w : World) :
  snd (bind m (fun _ => ret tt) w) = snd (m w).
Proof. unfold bind, ret. now destruct (m w) as [[a | e] w']. Qed.

Lemma step_deferred_head (d : Deferred) (f : Frame) (out : Deferred)
    (o : Outcome) (w : World) (rest : list Suspended) :
  suspended w = mkSuspended d f out :: rest ->
  f <> at_insubstantiation_wait ->
  step w (deferred_fires d o) =
    snd (resume (mkSuspended d f out) o
           (mkWorld (self w) (reactor w) (next_id w) rest (trace w))).
Proof.
  intros Hs Hf. unfold step, handle.
  now rewrite (on_deferred_head o w Hs Hf).
Qed.

(** One step: the driver reports the instance started. *)
Lemma step_start_instance_succeeded (dw : bool) (d out : Deferred)
    (w : World) (rest : list Suspended) :
  suspended w = mkSuspended d (at_start_instance dw) out :: rest ->
  state (self w) = SUBSTANTIATING ->
  let w' := step w (deferred_fires d (Returned true)) in
  next_id w' = next_id w
  /\ build_wait_timeout (self w') = build_wait_timeout (self w)
  /\ conn (self w') = conn (self w)
  /\ exists evs,
       trace w' = trace w ++ evs
       /\ ((dw && is_some (conn (self w)) = true
            /\ state (self w') = SUBSTANTIATED
            /\ (forall x, In x (_substantiation_notifier (self w)) ->
                  exists s, In (ev_fired x Success s) evs
                            /\ state s = SUBSTANTIATED))
           \/ (dw && is_some (conn (self w)) = false
               /\ self w' = self w)).
Proof.
  intros Hs Hst w'. subst w'.
  rewrite (step_deferred_head (Returned true) w Hs) by discriminate.
  destruct (@start_instance_succeeded dw d out
              (mkWorld (self w) (reactor w) (next_id w) rest (trace w)) Hst)
    as (H1 & H2 & H3 & evs & H4 & H5).
  cbn [self next_id trace] in H1, H2, H3, H4, H5.
  repeat split; try assumption.
  exists evs. split; [assumption |].
  destruct H5 as [H5 | (H5 & H6 & _)]; [left | right]; auto.
Qed.

(** One step: [attached] is let through. *)
Lemma step_attached_accepted (bot : Bot) (w : World) :
  state (self w) = SUBSTANTIATING
  \/ (build_wait_timeout (self w) < 0)%Z ->
  step w (call_attached bot) =
    mkWorld (self w) (reactor w) (2 + next_id w)
      (mkSuspended (S (next_id w)) (at_base_attached bot) (next_id w)
         :: suspended w)
      (trace w ++ [ev_base_attached bot (S (next_id w))]).
Proof.
  intros H. unfold step, handle. rewrite step_call.
  now rewrite (attached_accepted bot w H).
Qed.

(** One step: the inherited [attached] succeeds. *)
Lemma step_attached_succeeded (bot : Bot) (v : bool) (d out : Deferred)
    (w : World) (rest : list Suspended) :
  suspended w = mkSuspended d (at_base_attached bot) out :: rest ->
  let w' := step w (deferred_fires d (Returned v)) in
  next_id w' = next_id w
  /\ build_wait_timeout (self w') = build_wait_timeout (self w)
  /\ conn (self w') = Some bot
  /\ state (self w') =
       (if States_eqb (state (self w)) SUBSTANTIATING
        then SUBSTANTIATED else state (self w))
  /\ exists evs,
       trace w' = trace w ++ evs
       /\ (forall x, In x (_substantiation_notifier (self w)) ->
             exists s, In (ev_fired x Success s) evs
                       /\ state s = state (self w')).
Proof.
  intros Hs w'. subst w'.
  rewrite (step_deferred_head (Returned v) w Hs) by discriminate.
  exact (@attached_succeeded bot v d out
           (mkWorld (self w) (reactor w) (next_id w) rest (trace w))).
Qed.

(** One step: [insubstantiate()] on a worker that is up. *)
Lemma step_insubstantiate_up (fast force : bool) (w : World) :
  state (self w) = SUBSTANTIATED ->
  let w' := step w (call_insubstantiate fast force) in
  state (self w') =
    (if force then INSUBSTANTIATING_SUBSTANTIATING else INSUBSTANTIATING)
  /\ suspended w' =
       mkSuspended (S (next_id w)) (at_stop_instance false) (next_id w)
         :: suspended w
  /\ trace w' = trace w ++ [ev_log "insubstantiating worker";
                            ev_stop_instance fast (S (next_id w))]
  /\ conn (self w') = conn (self w).
Proof.
  intros Hst w'. subst w'. unfold step, handle. rewrite step_call.
  destruct (insubstantiate_tear_down fast force w (or_intror Hst))
    as (rs & Hrs & E).
  rewrite E, Hst. cbn. repeat split.
Qed.

(** One step: the driver has stopped the instance and nothing was queued
    meanwhile. *)
Lemma step_stop_instance_done (nc : bool) (o : Outcome) (d out : Deferred)
    (w : World) (rest : list Suspended) :
  suspended w = mkSuspended d (at_stop_instance nc) out :: rest ->
  state (self w) = INSUBSTANTIATING ->
  let w' := step w (deferred_fires d o) in
  state (self w') = NOT_SUBSTANTIATED
  /\ conn (self w') = conn (self w)
  /\ exists evs,
       trace w' = trace w ++ evs ++ [ev_fired out Success (self w')].
Proof.
  intros Hs Hst w'. subst w'.
  rewrite (step_deferred_head o w Hs) by discriminate.
  destruct (@insubstantiate_stopped nc o out
              (mkWorld (self w) (reactor w) (next_id w) rest (trace w))
              (or_introl Hst))
    as (evs & H1 & H2 & _ & H3 & _).
  cbn [self trace] in H1, H2, H3. rewrite Hst in H2. cbn in H2.
  repeat split; try assumption.
  exists evs. exact H1.
Qed.


(** ** The round trip *)

(** C3. From any world whose worker is NOT_SUBSTANTIATED: [substantiate]
    is called, the driver reports the instance started, the worker
    attaches; the caller's Deferred has then fired with [True] in state
    SUBSTANTIATED and the worker is SUBSTANTIATED.  Then [insubstantiate()]
    is called and the driver finishes stopping the instance (with success
    or with an error): the Deferred returned by [insubstantiate()] fires in
    state NOT_SUBSTANTIATED, and that is the state the worker is left in.
    Busy builders play no part. *)
Theorem substantiate_insubstantiate_round_trip (w : World)
    (wfb : WorkerForBuilder) (build : Build) (bot : Bot)
    (stopped : Outcome) :
  state (self w) = NOT_SUBSTANTIATED ->
  let n := next_id w in
  let up := run w (bring_up_at n wfb build bot) in
  let w' := run up (tear_down_at n stopped) in
  (exists s, In (ev_fired (S n) Success s) (emitted w up)
             /\ state s = SUBSTANTIATED)
  /\ state (self up) = SUBSTANTIATED
  /\ (exists s, In (ev_fired (6 + n) Success s) (emitted up w')
                /\ state s = NOT_SUBSTANTIATED)
  /\ state (self w') = NOT_SUBSTANTIATED.
Proof.
  intros Hst n up w'.
  assert (Eup : up =
    step (step (step (step w (call_substantiate wfb build))
                  (deferred_fires (3 + n) (Returned true)))
            (call_attached bot))
      (deferred_fires (5 + n) (Returned true))) by reflexivity.
  assert (Edown : w' =
    step (step up (call_insubstantiate false false))
      (deferred_fires (7 + n) stopped)) by reflexivity.
  clearbody w'. subst w'. clearbody up. subst up.
  (* substantiate *)
  destruct (substantiate_from_down wfb build w Hst)
    as (s1 & rs1 & evs1 & E1 & S1 & C1 & B1 & P1 & N1 & Q1).
  fold n in E1, N1.
  set (w1 := step w (call_substantiate wfb build)) in *.
  assert (W1 : w1 = snd (substantiate wfb build w))
    by (unfold w1, step, handle; apply step_call).
  rewrite E1 in W1. cbn [snd] in W1.
  assert (Sus1 : suspended w1 =
                 mkSuspended (3 + n)
                   (at_start_instance
                      ((build_wait_timeout (self w) <? 0)%Z
                       && is_some (conn (self w))))
                   (2 + n) :: suspended w) by (rewrite W1; reflexivity).
  assert (St1 : state (self w1) = SUBSTANTIATING) by (rewrite W1; exact S1).
  assert (Id1 : next_id w1 = 4 + n) by (rewrite W1; reflexivity).
  assert (Bw1 : build_wait_timeout (self w1) = build_wait_timeout (self w))
    by (rewrite W1; exact B1).
  assert (Cn1 : conn (self w1) = conn (self w)) by (rewrite W1; exact C1).
  assert (No1 : In (S n) (_substantiation_notifier (self w1)))
    by (rewrite W1; cbn [self]; rewrite N1; apply in_or_app; right; now left).
  assert (Tr1 : exists l, trace w1 = trace w ++ l)
    by (rewrite W1; eexists; reflexivity).
  clearbody w1. clear W1 E1 S1 C1 B1 P1 N1 Q1 s1 rs1 evs1.
  (* the instance has started *)
  set (w2 := step w1 (deferred_fires (3 + n) (Returned true))) in *.
  destruct (@step_start_instance_succeeded _ _ _ w1 _ Sus1 St1)
    as (Id2 & Bw2 & Cn2 & evs2 & Tr2 & Case2).
  fold w2 in Id2, Bw2, Cn2, Tr2, Case2.
  (* attached *)
  set (w3 := step w2 (call_attached bot)) in *.
  assert (Acc : state (self w2) = SUBSTANTIATING
                \/ (build_wait_timeout (self w2) < 0)%Z).
  { destruct Case2 as [(Hdw & _) | (_ & Hself)].
    - right. rewrite Bw2, Bw1. rewrite Cn1 in Hdw.
      apply andb_prop in Hdw. destruct Hdw as (Hdw & _).
      apply andb_prop in Hdw. destruct Hdw as (Hdw & _).
      now apply Z.ltb_lt.
    - left. now rewrite Hself. }
  assert (W3 : w3 = _) by exact (step_attached_accepted bot w2 Acc).
  assert (Sus3 : suspended w3 =
                 mkSuspended (5 + n) (at_base_attached bot) (4 + n)
                   :: suspended w2)
    by (rewrite W3; cbn [suspended]; rewrite Id2, Id1; reflexivity).
  assert (Se3 : self w3 = self w2) by (rewrite W3; reflexivity).
  assert (Id3 : next_id w3 = 6 + n)
    by (rewrite W3; cbn [next_id]; rewrite Id2, Id1; reflexivity).
  assert (Tr3 : exists l, trace w3 = trace w2 ++ l)
    by (rewrite W3; eexists; reflexivity).
  clearbody w3. clear W3.
  (* the inherited attached succeeds: the worker is up *)
  set (w4 := step w3 (deferred_fires (5 + n) (Returned true))) in *.
  destruct (@step_attached_succeeded bot true _ _ w3 _ Sus3)
    as (Id4 & Bw4 & Cn4 & St4 & evs4 & Tr4 & Fired4).
  fold w4 in Id4, Bw4, Cn4, St4, Tr4, Fired4.
  rewrite Se3 in St4, Fired4.
  assert (Up : state (self w4) = SUBSTANTIATED).
  { rewrite St4. destruct Case2 as [(_ & Hs & _) | (_ & Hself)].
    - now rewrite Hs.
    - now rewrite Hself, St1. }
  (* insubstantiate *)
  set (w5 := step w4 (call_insubstantiate false false)) in *.
  destruct (@step_insubstantiate_up false false w4 Up)
    as (St5 & Sus5 & Tr5 & _).
  fold w5 in St5, Sus5, Tr5. rewrite Id4, Id3 in Sus5, Tr5.
  change (S (6 + n)) with (7 + n) in Sus5, Tr5.
  (* the instance is stopped *)
  set (w6 := step w5 (deferred_fires (7 + n) stopped)) in *.
  destruct (@step_stop_instance_done false stopped _ _ w5 _ Sus5 St5)
    as (St6 & _ & evs6 & Tr6).
  fold w6 in St6, Tr6.
  destruct Tr1 as (l1 & Tr1). destruct Tr3 as (l3 & Tr3).
  split; [| split; [exact Up | split; [| exact St6]]].
  - (* the caller of substantiate was told of the success *)
    assert (Tr : trace w4 = trace w ++ l1 ++ evs2 ++ l3 ++ evs4)
      by (rewrite Tr4, Tr3, Tr2, Tr1, <- !app_assoc; reflexivity).
    rewrite (@emitted_app _ _ _ Tr).
    destruct Case2 as [(_ & Hs & Hf) | (_ & Hself)].
    + destruct (Hf _ No1) as (s & Hin & Hs').
      exists s. split; [| exact Hs'].
      apply in_or_app. right. apply in_or_app. now left.
    + rewrite Hself in Fired4.
      destruct (Fired4 _ No1) as (s & Hin & Hs').
      exists s. split; [| now rewrite Hs', Up].
      do 3 (apply in_or_app; right). exact Hin.
  - (* the Deferred returned by insubstantiate fired once torn down *)
    assert (Tr : trace w6 = trace w4 ++
                   [ev_log "insubstantiating worker";
                    ev_stop_instance false (7 + n)] ++ evs6
                   ++ [ev_fired (6 + n) Success (self w6)])
      by (rewrite Tr6, Tr5, <- !app_assoc; reflexivity).
    rewrite (@emitted_app _ _ _ Tr).
    exists (self w6). split; [| exact St6].
    do 2 (apply in_or_app; right). now left.
Qed.

(** C3: the theorem at a freshly configured worker, the driver stopping the
    instance without error. *)
Lemma substantiate_insubstantiate_round_trip_witness :
  state (self (run (run fresh_world (bring_up_at 0 wfb_idle "B1" "bot"))
                 (tear_down_at 0 (Returned true))))
  = NOT_SUBSTANTIATED.
Proof.
  assert (H : state (self fresh_world) = NOT_SUBSTANTIATED)
    by (vm_compute; reflexivity).
  exact (proj2 (proj2 (proj2
    (@substantiate_insubstantiate_round_trip fresh_world wfb_idle "B1" "bot"
       (Returned true) H)))).
Defined.

(** ** Deferreds that are still pending *)

Lemma insubstantiate_now_pending :
  insubstantiate_now None = insubstantiate false false.
Proof. reflexivity. Qed.

Lemma substantiation_failed_now_pending (failure : Result) :
  _substantiation_failed_now None failure = _substantiation_failed failure.
Proof. reflexivity. Qed.

Lemma substantiate_resume_now_pending (dw : bool) (o : Outcome) :
  _substantiate_resume_now None dw o = _substantiate_resume dw o.
Proof. reflexivity. Qed.

Lemma substantiate_now_pending (stop_now : option Outcome)
    (build : option Build) :
  _substantiate_now None stop_now build = _substantiate build.
Proof. reflexivity. Qed.

Lemma insubstantiate_resume_now_pending (stop_now : option Outcome)
    (nc : bool) (o : Outcome) :
  insubstantiate_resume_now None stop_now nc o = insubstantiate_resume nc o.
Proof. reflexivity. Qed.

Lemma insubstantiate_with_pending (start_now : option Outcome)
    (fast force : bool) :
  insubstantiate_with start_now None fast force = insubstantiate fast force.
Proof. reflexivity. Qed.
(** ** Parked generators *)

Lemma take_suspended_stop_frames (d : Deferred) (l rest : list Suspended)
    (s : Suspended) :
  take_suspended d l = Some (s, rest) ->
  awaits s = d
  /\ match frame s with
     | at_stop_instance nc =>
         exists l1 l2, stop_frames l = l1 ++ nc :: l2
                       /\ stop_frames rest = l1 ++ l2
     | _ => stop_frames rest = stop_frames l
     end.
Proof.
  revert rest. induction l as [| a l IH]; intros rest H; cbn in H.
  - discriminate.
  - destruct (awaits a =? d) eqn:Ha.
    + inversion H; subst. apply Nat.eqb_eq in Ha. split; [assumption |].
      cbn [stop_frames]. destruct (frame s); try reflexivity.
      exists [], (stop_frames rest). split; reflexivity.
    + destruct (take_suspended d l) as [[x r] |] eqn:Ht; [| discriminate].
      inversion H; subst. destruct (IH r eq_refl) as (Hd & Hf).
      split; [assumption |]. cbn [stop_frames].
      destruct (frame s) eqn:Hs; destruct (frame a) eqn:Hfa;
        try (rewrite Hf; reflexivity).
      all: destruct Hf as (l1 & l2 & E1 & E2).
      all: try (exists l1, l2; split; assumption).
      exists (notify_cancel0 :: l1), l2. rewrite E1, E2. split; reflexivity.
Qed.

(** Looking for the generator parked on [x] is not disturbed by taking out
    the one parked on another Deferred. *)
Lemma take_suspended_other (x y : Deferred) (l ly lx : list Suspended)
    (sx sy : Suspended) :
  x <> y ->
  take_suspended y l = Some (sy, ly) ->
  take_suspended x l = Some (sx, lx) ->
  exists lx', take_suspended x ly = Some (sx, lx').
Proof.
  intros Hxy. revert ly lx. induction l as [| a l IH]; intros ly lx Hy Hx;
    cbn in Hy, Hx.
  - discriminate.
  - destruct (awaits a =? y) eqn:Hay.
    + inversion Hy; subst. apply Nat.eqb_eq in Hay.
      destruct (awaits sy =? x) eqn:Hax.
      * apply Nat.eqb_eq in Hax. congruence.
      * destruct (take_suspended x ly) as [[s r] |]; [| discriminate].
        inversion Hx; subst. eauto.
    + destruct (take_suspended y l) as [[s r] |] eqn:Hty; [| discriminate].
      inversion Hy; subst. cbn [take_suspended].
      destruct (awaits a =? x) eqn:Hax.
      * inversion Hx; subst. eauto.
      * destruct (take_suspended x l) as [[s' r'] |] eqn:Htx; [| discriminate].
        inversion Hx; subst.
        destruct (IH r r' eq_refl eq_refl) as (lx' & E). rewrite E. eauto.
Qed.

(** [deliver], with what it does to the parked generators: the calls parked
    on [stop_instance] stay; a call of [insubstantiate] parked on the
    Deferred that fires ends, and its own Deferred fires with the same
    result; the generators parked on other Deferreds are found as before. *)
Lemma deliver_frames (r : Result) (d : Deferred) (w : World) :
  exists sus evs,
    deliver r d w =
      (Ok tt, mkWorld (self w) (reactor w) (next_id w) sus (trace w ++ evs))
    /\ Forall (fun e => exists d', e = ev_fired d' r (self w)) evs
    /\ In (ev_fired d r (self w)) evs
    /\ stop_frames sus = stop_frames (suspended w)
    /\ (forall s rest,
          take_suspended d (suspended w) = Some (s, rest) ->
          frame s = at_insubstantiation_wait ->
          In (ev_fired (returns s) r (self w)) evs)
    /\ (forall x s rest,
          x <> d ->
          take_suspended x (suspended w) = Some (s, rest) ->
          exists rest', take_suspended x sus = Some (s, rest')).
Proof.
  unfold deliver. mrun.
  destruct (take_suspended d (suspended w)) as [[s rest] |] eqn:Ht.
  - destruct (take_suspended_stop_frames _ _ Ht) as (Hd & Hf).
    destruct (frame s) eqn:Hfs; cbn.
    1-3: exists (suspended w), [ev_fired d r (self w)];
      split; [reflexivity |];
      split; [repeat constructor; eauto |];
      split; [now left |];
      split; [reflexivity |];
      split; [ intros s0 rest0 E Hw; inversion E; subst; congruence
             | intros x s0 rest0 _ E; eauto ].
    exists rest, [ev_fired d r (self w); ev_fired (returns s) r (self w)].
    rewrite <- app_assoc. cbn.
    split; [reflexivity |].
    split; [repeat constructor; eauto |].
    split; [now left |].
    split; [assumption |].
    split.
    + intros s0 rest0 E _. inversion E; subst. right; now left.
    + intros x s0 rest0 Hx E.
      eapply take_suspended_other; eauto.
  - exists (suspended w), [ev_fired d r (self w)].
    split; [reflexivity |].
    split; [repeat constructor; eauto |].
    split; [now left |].
    split; [reflexivity |].
    split.
    + intros s0 rest0 E. discriminate E.
    + intros x s0 rest0 _ E. eauto.
Qed.

Lemma for_each_deliver_frames (r : Result) (l : list Deferred) (w : World) :
  exists sus evs,
    for_each l (deliver r) w =
      (Ok tt, mkWorld (self w) (reactor w) (next_id w) sus (trace w ++ evs))
    /\ Forall (fun e => exists d', e = ev_fired d' r (self w)) evs
    /\ (forall d, In d l -> In (ev_fired d r (self w)) evs)
    /\ stop_frames sus = stop_frames (suspended w)
    /\ (forall d s rest,
          In d l ->
          take_suspended d (suspended w) = Some (s, rest) ->
          frame s = at_insubstantiation_wait ->
          In (ev_fired (returns s) r (self w)) evs)
    /\ (forall x s rest,
          ~ In x l ->
          take_suspended x (suspended w) = Some (s, rest) ->
          exists rest', take_suspended x sus = Some (s, rest')).
Proof.
  revert w. induction l as [| d0 l IH]; intros w; cbn [for_each].
  - exists (suspended w), []. rewrite app_nil_r.
    unfold ret. rewrite world_eta.
    split; [reflexivity |].
    split; [constructor |].
    split; [intros ? [] |].
    split; [reflexivity |].
    split; [intros ? ? ? [] |].
    intros x s rest _ E. eauto.
  - destruct (deliver_frames r d0 w)
      as (sus1 & evs1 & E1 & F1 & I1 & S1 & W1 & K1).
    unfold bind. rewrite E1.
    destruct (IH (mkWorld (self w) (reactor w) (next_id w) sus1
                    (trace w ++ evs1)))
      as (sus2 & evs2 & E2 & F2 & I2 & S2 & W2 & K2).
    rewrite E2. cbn [self reactor next_id suspended trace] in *.
    exists sus2, (evs1 ++ evs2). rewrite app_assoc.
    split; [reflexivity |].
    split; [apply Forall_app; split; assumption |].
    split; [intros d' [<- | Hin]; apply in_or_app; [left | right]; auto |].
    split; [congruence |].
    split.
    + intros d s rest Hin Ht Hw. apply in_or_app.
      destruct (Nat.eq_dec d d0) as [-> | Hne].
      * left. eapply W1; eauto.
      * right. destruct Hin as [Heq | Hin]; [congruence |].
        destruct (K1 d s rest Hne Ht) as (rest' & Ht').
        eapply W2; eauto.
    + intros x s rest Hx Ht.
      destruct (K1 x s rest) as (rest' & Ht'); [| assumption |].
      * intros ->. apply Hx. now left.
      * eapply K2; [| exact Ht']. intros Hin. apply Hx. now right.
Qed.

(** [_fireSubstantiationNotifier], with what it does to the parked
    generators. *)
Lemma fireSubstantiationNotifier_frames (result : Result) (w : World) :
  exists sus evs,
    let s1 := if Notifier_bool (_substantiation_notifier (self w))
              then set_substantiation_notifier []
                     (set_substantiation_build None (self w))
              else self w in
    _fireSubstantiationNotifier result w =
      (Ok tt, mkWorld s1 (reactor w) (next_id w) sus (trace w ++ evs))
    /\ (forall d r s, In (ev_fired d r s) evs -> r = result /\ s = s1)
    /\ (forall d, In d (_substantiation_notifier (self w)) ->
          In (ev_fired d result s1) evs)
    /\ stop_frames sus = stop_frames (suspended w)
    /\ (forall x s rest,
          ~ In x (_substantiation_notifier (self w)) ->
          take_suspended x (suspended w) = Some (s, rest) ->
          exists rest', take_suspended x sus = Some (s, rest')).
Proof.
  unfold _fireSubstantiationNotifier, Notifier_notify. mrun.
  destruct (_substantiation_notifier (self w)) as [| d0 l] eqn:Hn; cbn.
  - exists (suspended w). eexists.
    split; [reflexivity |].
    split; [intros d r s [H | []]; discriminate H |].
    split; [intros ? [] |].
    split; [reflexivity |].
    intros x s rest _ E. eauto.
  - match goal with
    | |- context [for_each ?l (deliver ?r) ?x] =>
        destruct (for_each_deliver_frames r l x)
          as (sus & evs & E & F & I & S1 & _ & K)
    end.
    cbn [self reactor next_id suspended trace] in E, F, I, S1, K.
    rewrite E. exists sus. eexists.
    rewrite <- app_assoc. cbn [app].
    split; [reflexivity |].
    split.
    { intros d r s [H | H]; [discriminate H |].
      rewrite Forall_forall in F. destruct (F _ H) as (d' & Heq).
      inversion Heq; subst. split; reflexivity. }
    split; [intros d Hd; right; apply I; rewrite Hn; exact Hd |].
    split; [exact S1 |].
    intros x s rest Hx. apply K. rewrite Hn. exact Hx.
Qed.

(** [if self._insubstantiation_notifier:
       self._insubstantiation_notifier.notify(True)], with what it does to
    the parked generators: the calls of [insubstantiate] that joined the
    tear-down end, and their Deferreds fire. *)
Lemma notify_insubstantiation_frames (w : World) :
  exists sus evs,
    let s1 := set_insubstantiation_notifier [] (self w) in
    when (Notifier_bool (_insubstantiation_notifier (self w)))
      (Notifier_notify _insubstantiation_notifier
         set_insubstantiation_notifier Success) w =
      (Ok tt, mkWorld s1 (reactor w) (next_id w) sus (trace w ++ evs))
    /\ Forall (fun e => exists d, e = ev_fired d Success s1) evs
    /\ (forall d, In d (_insubstantiation_notifier (self w)) ->
          In (ev_fired d Success s1) evs)
    /\ stop_frames sus = stop_frames (suspended w)
    /\ (forall d s rest,
          In d (_insubstantiation_notifier (self w)) ->
          take_suspended d (suspended w) = Some (s, rest) ->
          frame s = at_insubstantiation_wait ->
          In (ev_fired (returns s) Success s1) evs).
Proof.
  unfold Notifier_notify. mrun.
  destruct (_insubstantiation_notifier (self w)) as [| d0 l] eqn:Hn; cbn.
  - exists (suspended w), []. rewrite app_nil_r, <- Hn.
    rewrite set_insubstantiation_notifier_same, world_eta.
    split; [reflexivity |].
    split; [constructor |].
    split; [intros ? [] |].
    split; [reflexivity |].
    intros ? ? ? [].
  - match goal with
    | |- context [for_each ?l (deliver ?r) ?x] =>
        destruct (for_each_deliver_frames r l x)
          as (sus & evs & E & F & I & S1 & W & _)
    end.
    cbn [self reactor next_id suspended trace] in E, F, I, S1, W.
    rewrite E. exists sus, evs. rewrite Hn in I, W.
    split; [reflexivity |].
    split; [exact F |].
    split; [exact I |].
    split; [exact S1 |].
    exact W.
Qed.

(** [if notify_cancel and self._substantiation_notifier:
       self._fireSubstantiationNotifier(Failure(Cancelled))], with what it
    does to the parked generators. *)
Lemma notify_cancel_frames (notify_cancel : bool) (w : World) :
  exists sus evs,
    when (notify_cancel && Notifier_bool (_substantiation_notifier (self w)))
      (_fireSubstantiationNotifier
         (Failure LatentWorkerSubstantiatiationCancelled)) w =
      (Ok tt, mkWorld (cancellation_delivered notify_cancel (self w))
                (reactor w) (next_id w) sus (trace w ++ evs))
    /\ (forall d r s, In (ev_fired d r s) evs ->
          r = Failure LatentWorkerSubstantiatiationCancelled)
    /\ stop_frames sus = stop_frames (suspended w)
    /\ (forall x s rest,
          ~ In x (_substantiation_notifier (self w)) ->
          take_suspended x (suspended w) = Some (s, rest) ->
          exists rest', take_suspended x sus = Some (s, rest')).
Proof.
  unfold cancellation_delivered, when.
  destruct (notify_cancel && Notifier_bool (_substantiation_notifier (self w)))
    eqn:Hnc.
  - apply andb_prop in Hnc. destruct Hnc as (_ & Hb).
    destruct (fireSubstantiationNotifier_frames
                (Failure LatentWorkerSubstantiatiationCancelled) w)
      as (sus & evs & E & F & _ & S1 & K).
    cbv zeta in E, F. rewrite Hb in E. rewrite E.
    exists sus, evs.
    split; [reflexivity |].
    split; [intros d r s Hin; exact (proj1 (F d r s Hin)) |].
    split; [exact S1 | exact K].
  - exists (suspended w), []. unfold ret. rewrite app_nil_r, world_eta.
    split; [reflexivity |].
    split; [intros ? ? ? [] |].
    split; [reflexivity |].
    intros x s rest _ E. eauto.
Qed.


(** ** [insubstantiate] when [stop_instance] has finished *)

Lemma cancellation_delivered_fields (nc : bool) (s : Worker) :
  state (cancellation_delivered nc s) = state s
  /\ conn (cancellation_delivered nc s) = conn s
  /\ missing_timer (cancellation_delivered nc s) = missing_timer s
  /\ build_wait_timer (cancellation_delivered nc s) = build_wait_timer s
  /\ _insubstantiation_notifier (cancellation_delivered nc s)
     = _insubstantiation_notifier s
  /\ name (cancellation_delivered nc s) = name s
  /\ build_wait_timeout (cancellation_delivered nc s) = build_wait_timeout s
  /\ parent (cancellation_delivered nc s) = parent s
  /\ notify_on_missing (cancellation_delivered nc s) = notify_on_missing s.
Proof.
  unfold cancellation_delivered.
  destruct (nc && Notifier_bool (_substantiation_notifier s));
    repeat split.
Qed.

Ltac cancel_fields :=
  repeat match goal with
         | |- context [state (cancellation_delivered ?nc ?s)] =>
             rewrite (proj1 (cancellation_delivered_fields nc s))
         | |- context [_insubstantiation_notifier
                         (cancellation_delivered ?nc ?s)] =>
             rewrite (proj1 (proj2 (proj2 (proj2 (proj2
                        (cancellation_delivered_fields nc s))))))
         | |- context [name (cancellation_delivered ?nc ?s)] =>
             rewrite (proj1 (proj2 (proj2 (proj2 (proj2 (proj2
                        (cancellation_delivered_fields nc s)))))))
         | |- context [build_wait_timeout (cancellation_delivered ?nc ?s)] =>
             rewrite (proj1 (proj2 (proj2 (proj2 (proj2 (proj2 (proj2
                        (cancellation_delivered_fields nc s))))))))
         | |- context [conn (cancellation_delivered ?nc ?s)] =>
             rewrite (proj1 (proj2 (cancellation_delivered_fields nc s)))
         end.

Ltac wcbn :=
  cbn [fst snd self reactor next_id suspended trace].

Ltac use_cancel_frames :=
  wcbn;
  match goal with
  | |- context [when (?nc && _) (_fireSubstantiationNotifier _) ?x] =>
      let E := fresh "E" in
      destruct (notify_cancel_frames nc x)
        as (?sus & ?evs & E & ?Hev & ?Hsf & ?Hk);
      cbn [self reactor next_id suspended trace] in *;
      rewrite E; clear E; wcbn
  end.

Ltac use_insub_frames :=
  wcbn;
  match goal with
  | |- context [when _ (Notifier_notify _insubstantiation_notifier _ _) ?x] =>
      let E := fresh "E" in
      destruct (notify_insubstantiation_frames x)
        as (?sus & ?evs & E & ?F & ?I & ?Hsf & ?Hw);
      cbv zeta in *;
      cbn [self reactor next_id suspended trace] in *;
      rewrite E; clear E; wcbn
  end.

(** Resumed while the worker is still INSUBSTANTIATING, [insubstantiate]
    delivers the cancellation it owes, moves to NOT_SUBSTANTIATED and
    releases the calls that joined the tear-down; it never gets to
    [_substantiate]. *)
Lemma insubstantiate_resume_now_down (start_now stop_now : option Outcome)
    (nc : bool) (o : Outcome) (w : World) :
  state (self w) = INSUBSTANTIATING ->
  exists sus evs,
    insubstantiate_resume_now start_now stop_now nc o w =
      (Ok tt, mkWorld (stopped_snapshot nc (self w)) (reactor w) (next_id w)
                sus (trace w ++ evs))
    /\ stop_frames sus = stop_frames (suspended w)
    /\ (forall d, In d (_insubstantiation_notifier (self w)) ->
          In (ev_fired d Success (stopped_snapshot nc (self w))) evs)
    /\ (forall d s rest,
          In d (_insubstantiation_notifier (self w)) ->
          ~ In d (_substantiation_notifier (self w)) ->
          take_suspended d (suspended w) = Some (s, rest) ->
          frame s = at_insubstantiation_wait ->
          In (ev_fired (returns s) Success (stopped_snapshot nc (self w)))
             evs)
    /\ (forall d r s, In (ev_fired d r s) evs ->
          r = Failure LatentWorkerSubstantiatiationCancelled
          \/ (r = Success /\ s = stopped_snapshot nc (self w))).
Proof.
  intros Hst. unfold insubstantiate_resume_now, stopped_snapshot. mrun'.
  destruct o as [v | e]; wcbn; rewrite Hst;
    cbn [state_in existsb States_eqb orb]; wcbn.
  all: use_cancel_frames; cancel_fields; rewrite Hst; cbn [States_eqb]; wcbn.
  all: use_insub_frames.
  all: cbn [_insubstantiation_notifier set_state name
              set_insubstantiation_notifier] in *.
  all: revert I Hw; cancel_fields; intros I Hw.
  all: repeat rewrite <- app_assoc.
  all: eexists; eexists; (split; [reflexivity |]).
  all: split; [congruence |].
  all: split; [intros d Hd; find_in |].
  all: split;
    [ intros d s rest Hd Hnd Ht Hf;
      destruct (Hk d s rest Hnd Ht) as (rest' & Ht');
      pose proof (Hw d s rest' Hd Ht' Hf); find_in |].
  all: intros d r s Hin; in_cases Hin;
    [ left; eapply Hev; eassumption
    | right; rewrite Forall_forall in F; destruct (F _ Hin) as (d' & Heq);
      inversion Heq; split; reflexivity ].
Qed.


(** A call resumed in state INSUBSTANTIATING does not get to
    [_substantiate], so that what [start_instance] would answer plays no
    part. *)
Lemma insubstantiate_resume_now_plain (start_now stop_now : option Outcome)
    (nc : bool) (o : Outcome) (w : World) :
  state (self w) = INSUBSTANTIATING ->
  insubstantiate_resume_now start_now stop_now nc o w =
  insubstantiate_resume nc o w.
Proof.
  intros Hst. unfold insubstantiate_resume_now, insubstantiate_resume. mrun'.
  destruct o as [v | e]; wcbn; rewrite Hst;
    cbn [state_in existsb States_eqb orb]; wcbn.
  all: use_cancel_frames; cancel_fields; rewrite Hst; cbn [States_eqb];
    reflexivity.
Qed.

(** The call of [insubstantiate()] made by [_substantiation_failed] is the
    method itself, called without arguments. *)
Lemma insubstantiate_now_with (start_now stop_now : option Outcome)
    (w : World) :
  insubstantiate_now stop_now w =
  insubstantiate_with start_now stop_now false false w.
Proof.
  unfold insubstantiate_now, insubstantiate_with. mrun'.
  destruct (state (self w)) eqn:Hst; cbn [States_eqb]; try reflexivity.
  all: destruct stop_now as [o |]; [| reflexivity].
  all: match goal with
       | |- context [_clearBuildWaitTimer ?x] =>
           destruct (clearBuildWaitTimer_spec x) as (rs & E & Hrs);
           rewrite E; clear E
       end; wcbn.
  all: unfold stop_instance; mrun'.
  all: match goal with
       | |- context [insubstantiate_resume ?nc ?o ?x] =>
           rewrite <- (@insubstantiate_resume_now_plain start_now (Some o)
                         nc o x eq_refl)
       end; reflexivity.
Qed.


(** ** [insubstantiate], from the call to the first suspension *)

(** In the three states in which [insubstantiate] does not call
    [stop_instance], what the driver would answer plays no part. *)
Lemma insubstantiate_with_no_stop (start_now stop_now : option Outcome)
    (fast force : bool) (w : World) :
  state (self w) = NOT_SUBSTANTIATED
  \/ state (self w) = INSUBSTANTIATING
  \/ state (self w) = INSUBSTANTIATING_SUBSTANTIATING ->
  insubstantiate_with start_now stop_now fast force w =
  insubstantiate fast force w.
Proof.
  intros Hst. unfold insubstantiate_with, insubstantiate. mrun'.
  destruct Hst as [Hst | [Hst | Hst]]; rewrite Hst; reflexivity.
Qed.

(** [insubstantiate] while a substantiation is queued behind a tear-down:
    the queued substantiation is cancelled and the call joins the
    tear-down. *)
Lemma insubstantiate_queued_frames (fast force : bool) (w : World) :
  state (self w) = INSUBSTANTIATING_SUBSTANTIATING ->
  exists sus evs,
    let s1 := if Notifier_bool (_substantiation_notifier (self w))
              then set_substantiation_notifier []
                     (set_substantiation_build None
                        (set_state INSUBSTANTIATING (self w)))
              else set_state INSUBSTANTIATING (self w) in
    insubstantiate fast force w =
      (Ok (next_id w),
       mkWorld
         (set_insubstantiation_notifier
            (_insubstantiation_notifier (self w) ++ [S (next_id w)]) s1)
         (reactor w) (S (S (next_id w)))
         (mkSuspended (S (next_id w)) at_insubstantiation_wait (next_id w)
            :: sus)
         (trace w ++ ev_log "insubstantiating worker" :: evs))
    /\ (forall d r s, In (ev_fired d r s) evs ->
          r = Failure LatentWorkerSubstantiatiationCancelled /\ s = s1)
    /\ (forall d, In d (_substantiation_notifier (self w)) ->
          In (ev_fired d (Failure LatentWorkerSubstantiatiationCancelled) s1)
             evs)
    /\ stop_frames sus = stop_frames (suspended w).
Proof.
  intros Hst. unfold insubstantiate, Notifier_wait. mrun'. rewrite Hst.
  cbn [States_eqb]. wcbn.
  match goal with
  | |- context [_fireSubstantiationNotifier ?r ?x] =>
      destruct (fireSubstantiationNotifier_frames r x)
        as (sus & evs & E & F & I & Hsf & _)
  end.
  cbv zeta in E, F, I.
  cbn [self reactor next_id suspended trace _substantiation_notifier
         set_state] in E, F, I, Hsf.
  rewrite E. wcbn.
  exists sus, evs. cbv zeta.
  destruct (Notifier_bool (_substantiation_notifier (self w)));
    cbn [_insubstantiation_notifier set_state set_substantiation_notifier
           set_substantiation_build];
    repeat rewrite <- app_assoc; cbn [app];
    (split; [reflexivity |]);
    (split; [exact F |]);
    (split; [exact I | exact Hsf]).
Qed.

(** [insubstantiate] on a worker that is up or coming up: it records
    whether a substantiation must be cancelled, moves to INSUBSTANTIATING
    (or INSUBSTANTIATING_SUBSTANTIATING when forced), drops the idle timer
    and asks the driver to stop the instance.  It parks there when the
    driver has not answered yet, and runs on through the rest of the method
    otherwise. *)
Lemma insubstantiate_with_tear_down (start_now stop_now : option Outcome)
    (fast force : bool) (w : World) :
  state (self w) = SUBSTANTIATING \/ state (self w) = SUBSTANTIATED ->
  exists rs,
    incl rs (reactor w)
    /\ let nc := States_eqb (state (self w)) SUBSTANTIATING in
       let w1 :=
         mkWorld
           (set_build_wait_timer None
              (set_state (if force then INSUBSTANTIATING_SUBSTANTIATING
                          else INSUBSTANTIATING) (self w)))
           rs (S (S (next_id w))) (suspended w)
           (trace w ++ [ev_log "insubstantiating worker";
                        ev_stop_instance fast (S (next_id w))]) in
       insubstantiate_with start_now stop_now fast force w =
         (Ok (next_id w),
          match stop_now with
          | None =>
              mkWorld (self w1) rs (S (S (next_id w)))
                (mkSuspended (S (next_id w)) (at_stop_instance nc)
                   (next_id w) :: suspended w)
                (trace w1)
          | Some o =>
              snd (finish (next_id w)
                     (insubstantiate_resume_now start_now stop_now nc o) w1)
          end).
Proof.
  intros Hst. unfold insubstantiate_with, stop_instance. mrun'.
  destruct Hst as [Hst | Hst]; rewrite Hst; cbn [States_eqb]; wcbn.
  all: match goal with
       | |- context [_clearBuildWaitTimer ?x] =>
           destruct (clearBuildWaitTimer_spec x) as (rs & E & Hrs);
           rewrite E; clear E
       end; wcbn.
  all: exists rs; (split; [exact Hrs |]); cbv zeta; wcbn.
  all: repeat rewrite <- app_assoc; cbn [app].
  all: destruct stop_now as [o |]; wcbn; [| reflexivity].
  all: match goal with
       | |- context [insubstantiate_resume_now ?a ?b ?c ?d ?x] =>
           destruct (insubstantiate_resume_now a b c d x) as [[[] | e] w']
       end; reflexivity.
Qed.


(** ** What the controller keeps true *)

Lemma controller_invariant_ext (w w' : World) :
  self w' = self w ->
  stop_frames (suspended w') = stop_frames (suspended w) ->
  controller_invariant w -> controller_invariant w'.
Proof.
  unfold controller_invariant. intros -> ->. exact (fun H => H).
Qed.

Ltac inv_fields :=
  cbn [self suspended stop_frames frame
         state conn substantiation_build _substantiation_notifier
         _insubstantiation_notifier build_wait_timer missing_timer
         set_state set_conn set_substantiation_build set_build_wait_timer
         set_missing_timer set_substantiation_notifier
         set_insubstantiation_notifier set_workerforbuilders
         state_in existsb States_eqb orb andb] in *.

(** Closes a goal [controller_invariant w'] where [w'] is given by its
    fields, from the invariant of the world before. *)
Ltac rw_state :=
  repeat match goal with
         | H : state (self ?w0) = _ |- context [state (self ?w0)] =>
             rewrite H
         | H : state (self ?w0) = _, H' : context [state (self ?w0)] |- _ =>
             rewrite H in H'
         end.

Ltac rw_frames :=
  repeat match goal with
         | H : stop_frames ?a = _ |- context [stop_frames ?a] =>
             rewrite H
         | H : stop_frames ?a = _, H' : context [stop_frames ?a] |- _ =>
             rewrite H in H'
         end.

Ltac inv_leaf :=
  unfold controller_invariant, tearing_down, stopped_snapshot,
    cancellation_delivered in *;
  inv_fields;
  try assumption;
  repeat match goal with
         | |- context [Notifier_bool ?n] =>
             let Hb := fresh "Hb" in
             destruct (Notifier_bool n) eqn:Hb;
             [| apply Notifier_bool_nil in Hb ]; inv_fields
         | |- context [if ?b && _ then _ else _] =>
             is_var b; destruct b; inv_fields
         | |- context [if ?b then _ else _] =>
             is_var b; destruct b; inv_fields
         end;
  rw_state; inv_fields; rw_frames; inv_fields;
  repeat match goal with
         | H : _ /\ _ |- _ => destruct H
         | H : exists _, _ |- _ => destruct H
         end;
  rw_frames; inv_fields;
  repeat split; intros;
  repeat match goal with
         | H : _ \/ _ |- _ => destruct H
         end;
  try discriminate; try congruence;
  try match goal with
      | H : _ ++ _ :: _ = [] |- _ =>
          apply app_eq_nil in H; destruct H; discriminate
      | |- _ ++ _ :: _ <> [] =>
          let H := fresh in
          intros H; apply app_eq_nil in H; destruct H; discriminate
      end;
  try (eexists; split; [reflexivity | intros; try congruence]);
  try (destruct (substantiation_build _) eqn:?; [exfalso | reflexivity]);
  repeat match goal with
         | H : Some ?b <> None -> _ |- _ =>
             specialize (H ltac:(discriminate))
         | H : ?a = ?a -> _ |- _ => specialize (H eq_refl)
         | H : ?a = ?a \/ _ -> _ |- _ => specialize (H (or_introl eq_refl))
         | H : _ \/ ?a = ?a -> _ |- _ => specialize (H (or_intror eq_refl))
         | H : ?P -> _, H' : ?P |- _ => specialize (H H')
         | H : ?P \/ _ -> _, H' : ?P |- _ => specialize (H (or_introl H'))
         | H : _ \/ ?P -> _, H' : ?P |- _ => specialize (H (or_intror H'))
         end;
  eauto; try congruence;
  try (exfalso; eauto; congruence).

Lemma insubstantiate_unforced_keeps (start_now stop_now : option Outcome)
    (fast : bool) (w : World) :
  controller_invariant w ->
  exists w1,
    insubstantiate_with start_now stop_now fast false w = (Ok (next_id w), w1)
    /\ controller_invariant w1.
Proof.
  intros Inv. destruct (state (self w)) eqn:Hst.
  - rewrite insubstantiate_with_no_stop by auto.
    rewrite insubstantiate_not_substantiated by assumption.
    eexists; split; [reflexivity |].
    eapply controller_invariant_ext; [| | exact Inv]; reflexivity.
  - destruct (insubstantiate_with_tear_down start_now stop_now fast false w
                (or_introl Hst)) as (rs & Hrs & E).
    cbv zeta in E. rewrite E. clear E.
    eexists; split; [reflexivity |].
    destruct stop_now as [o |].
    + unfold finish.
      match goal with
      | |- context [insubstantiate_resume_now ?a ?b ?c ?d ?x] =>
          destruct (@insubstantiate_resume_now_down a b c d x eq_refl)
            as (sus & evs & E & Hsf & _)
      end.
      rewrite E. unfold fire, emit. cbn [snd self suspended] in *.
      inv_leaf.
    + inv_leaf.
  - destruct (insubstantiate_with_tear_down start_now stop_now fast false w
                (or_intror Hst)) as (rs & Hrs & E).
    cbv zeta in E. rewrite E. clear E.
    eexists; split; [reflexivity |].
    destruct stop_now as [o |].
    + unfold finish.
      match goal with
      | |- context [insubstantiate_resume_now ?a ?b ?c ?d ?x] =>
          destruct (@insubstantiate_resume_now_down a b c d x eq_refl)
            as (sus & evs & E & Hsf & _)
      end.
      rewrite E. unfold fire, emit. cbn [snd self suspended] in *.
      inv_leaf.
    + inv_leaf.
  - rewrite insubstantiate_with_no_stop by auto.
    rewrite insubstantiate_insubstantiating by assumption.
    eexists; split; [reflexivity |]. inv_leaf.
  - rewrite insubstantiate_with_no_stop by auto.
    destruct (insubstantiate_queued_frames fast false w Hst)
      as (sus & evs & E & _ & _ & Hsf).
    cbv zeta in E. rewrite E. clear E.
    eexists; split; [reflexivity |]. inv_leaf.
Qed.


Ltac use_fire_frames :=
  wcbn;
  match goal with
  | |- context [_fireSubstantiationNotifier ?r ?x] =>
      let E := fresh "E" in
      destruct (fireSubstantiationNotifier_frames r x)
        as (?sus & ?evs & E & ?F & ?I & ?Hsf & ?Hk);
      cbv zeta in *;
      cbn [self reactor next_id suspended trace] in *;
      rewrite E; clear E; wcbn
  end.

(** Runs the call of [insubstantiate()] in the goal, from a world that
    satisfies the invariant. *)
Ltac use_insubstantiate_now :=
  wcbn;
  match goal with
  | |- context [insubstantiate_now ?st ?x] =>
      let HI := fresh "HI" in
      let E := fresh "E" in
      assert (HI : controller_invariant x) by inv_leaf;
      rewrite (insubstantiate_now_with None st x);
      destruct (insubstantiate_unforced_keeps None st false HI)
        as (?w1 & E & ?Inv1);
      rewrite E; clear E; wcbn
  end.

Ltac keep_invariant :=
  eexists; split; [reflexivity |];
  first [ assumption
        | eapply controller_invariant_ext; [| | eassumption]; reflexivity ].

Lemma substantiation_failed_now_keeps (stop_now : option Outcome)
    (failure : Result) (w : World) :
  controller_invariant w ->
  exists w1,
    _substantiation_failed_now stop_now failure w = (Ok tt, w1)
    /\ controller_invariant w1.
Proof.
  intros Inv. unfold _substantiation_failed_now. mrun'.
  destruct (state (self w)) eqn:Hst; cbn [States_eqb when]; mrun'.
  2: use_fire_frames.
  all: use_insubstantiate_now.
  all: destruct (negb (parent (self w1)) || is_nil (notify_on_missing (self w1)));
    keep_invariant.
Qed.


Ltac use_stop_missing_frames :=
  wcbn;
  match goal with
  | |- context [stopMissingTimer ?x] =>
      let E := fresh "E" in
      destruct (stopMissingTimer_spec x) as (?rs & E & ?Hrs);
      cbn [self reactor next_id suspended trace] in *;
      rewrite E; clear E; wcbn
  end.

Ltac use_failed_now :=
  wcbn;
  match goal with
  | |- context [_substantiation_failed_now ?st ?f ?x] =>
      let HI := fresh "HI" in
      let E := fresh "E" in
      assert (HI : controller_invariant x) by inv_leaf;
      destruct (substantiation_failed_now_keeps st f HI)
        as (?w1 & E & ?Inv1);
      rewrite E; clear E; wcbn
  end.

Lemma substantiate_resume_now_keeps (stop_now : option Outcome)
    (dont_wait_to_attach : bool) (o : Outcome) (w : World) :
  controller_invariant w ->
  exists w1,
    _substantiate_resume_now stop_now dont_wait_to_attach o w = (Ok tt, w1)
    /\ controller_invariant w1.
Proof.
  intros Inv. unfold _substantiate_resume_now. mrun'.
  destruct o as [[|] | e]; cbn [negb]; wcbn.
  - destruct (dont_wait_to_attach && States_eqb (state (self w)) SUBSTANTIATING
              && is_some (conn (self w))) eqn:Hc; wcbn.
    + apply andb_prop in Hc. destruct Hc as (Hc & _).
      apply andb_prop in Hc. destruct Hc as (_ & Hc).
      destruct (States_eqb_spec (state (self w)) SUBSTANTIATING) as [Hst |];
        [| discriminate].
      use_fire_frames.
      eexists; split; [reflexivity |]. inv_leaf.
    + keep_invariant.
  - use_stop_missing_frames. use_failed_now. keep_invariant.
  - use_stop_missing_frames. use_failed_now. keep_invariant.
Qed.

Ltac use_substantiate_resume_now :=
  wcbn;
  match goal with
  | |- context [_substantiate_resume_now ?st ?dw ?o ?x] =>
      let HI := fresh "HI" in
      let E := fresh "E" in
      assert (HI : controller_invariant x) by inv_leaf;
      destruct (substantiate_resume_now_keeps st dw o HI)
        as (?w1 & E & ?Inv1);
      rewrite E; clear E; wcbn
  end.

Lemma substantiate_now_keeps (start_now stop_now : option Outcome)
    (build : option Build) (w : World) :
  controller_invariant w ->
  exists w1,
    _substantiate_now start_now stop_now build w = (Ok (next_id w), w1)
    /\ controller_invariant w1.
Proof.
  intros Inv. unfold _substantiate_now, start_instance. mrun'.
  destruct start_now as [o |]; wcbn.
  - use_substantiate_resume_now. keep_invariant.
  - eexists; split; [reflexivity |]. inv_leaf.
Qed.


(** The call of [insubstantiate] that is parked on [stop_instance] is the
    one that started the tear-down in progress: when it is taken out, the
    worker is tearing down, no other call is parked there, and a build that
    is still pending in state INSUBSTANTIATING is the one this call is to
    cancel. *)
Lemma stop_frame_taken (w : World) (d : Deferred) (s : Suspended)
    (rest : list Suspended) (nc : bool) :
  controller_invariant w ->
  take_suspended d (suspended w) = Some (s, rest) ->
  frame s = at_stop_instance nc ->
  (state (self w) = INSUBSTANTIATING
   \/ state (self w) = INSUBSTANTIATING_SUBSTANTIATING)
  /\ stop_frames rest = []
  /\ (state (self w) = INSUBSTANTIATING ->
      substantiation_build (self w) <> None -> nc = true).
Proof.
  intros (_ & _ & Hc) Ht Hf.
  destruct (take_suspended_stop_frames _ _ Ht) as (_ & Hs).
  rewrite Hf in Hs. destruct Hs as (l1 & l2 & E1 & E2).
  unfold tearing_down in Hc.
  destruct (state (self w)) eqn:Hst; cbn in Hc;
    try (rewrite E1 in Hc; destruct l1; discriminate Hc).
  all: destruct Hc as (nc' & Hc & Hb); rewrite E1 in Hc.
  all: destruct l1 as [| a l1]; [| destruct l1; discriminate Hc].
  all: cbn in Hc; inversion Hc; subst.
  all: split; [auto |]; split; [exact E2 |].
  - intros _. exact (Hb eq_refl).
  - intros H. discriminate H.
Qed.

Ltac use_substantiate_now :=
  wcbn;
  match goal with
  | |- context [_substantiate_now ?sn ?st ?b ?x] =>
      let HI := fresh "HI" in
      let E := fresh "E" in
      assert (HI : controller_invariant x) by inv_leaf;
      destruct (substantiate_now_keeps sn st b HI)
        as (?w1 & E & ?Inv1);
      rewrite E; clear E; wcbn
  end.

(** [insubstantiate], resumed after [stop_instance] in a world from which
    its own frame has been taken out, restores the invariant. *)
Lemma insubstantiate_resume_now_keeps (start_now stop_now : option Outcome)
    (nc : bool) (o : Outcome) (w : World) :
  (substantiation_build (self w) <> None ->
   _substantiation_notifier (self w) <> []) ->
  state (self w) = INSUBSTANTIATING
  \/ state (self w) = INSUBSTANTIATING_SUBSTANTIATING ->
  stop_frames (suspended w) = [] ->
  (state (self w) = INSUBSTANTIATING ->
   substantiation_build (self w) <> None -> nc = true) ->
  exists w1,
    insubstantiate_resume_now start_now stop_now nc o w = (Ok tt, w1)
    /\ controller_invariant w1.
Proof.
  intros Ha [Hst | Hst] Hsf0 Hb.
  - destruct (insubstantiate_resume_now_down start_now stop_now nc o w Hst)
      as (sus & evs & E & Hsf & _).
    rewrite E. eexists; split; [reflexivity |].
    specialize (Hb Hst). inv_leaf.
  - clear Hb. unfold insubstantiate_resume_now. mrun'.
    destruct o as [v | e]; wcbn; rewrite Hst;
      cbn [state_in existsb States_eqb orb]; wcbn.
    all: use_cancel_frames; cancel_fields; rewrite Hst; cbn [States_eqb];
      wcbn.
    all: use_insub_frames.
    all: use_substantiate_now.
    all: keep_invariant.
Qed.


Lemma insubstantiate_with_keeps (start_now stop_now : option Outcome)
    (fast force : bool) (w : World) :
  controller_invariant w ->
  exists w1,
    insubstantiate_with start_now stop_now fast force w = (Ok (next_id w), w1)
    /\ controller_invariant w1.
Proof.
  intros Inv. destruct (state (self w)) eqn:Hst.
  - rewrite insubstantiate_with_no_stop by auto.
    rewrite insubstantiate_not_substantiated by assumption.
    keep_invariant.
  - destruct (insubstantiate_with_tear_down start_now stop_now fast force w
                (or_introl Hst)) as (rs & Hrs & E).
    cbv zeta in E. rewrite E. clear E.
    eexists; split; [reflexivity |].
    destruct stop_now as [o |]; [| destruct force; inv_leaf].
    unfold finish.
    match goal with
    | |- context [insubstantiate_resume_now ?a ?b ?c ?d ?x] =>
        destruct (@insubstantiate_resume_now_keeps a b c d x)
          as (w2 & E & Inv2)
    end.
    1-4: destruct force; inv_leaf.
    rewrite E. unfold fire, emit. wcbn.
    eapply controller_invariant_ext; [| | exact Inv2]; reflexivity.
  - destruct (insubstantiate_with_tear_down start_now stop_now fast force w
                (or_intror Hst)) as (rs & Hrs & E).
    cbv zeta in E. rewrite E. clear E.
    eexists; split; [reflexivity |].
    destruct stop_now as [o |]; [| destruct force; inv_leaf].
    unfold finish.
    match goal with
    | |- context [insubstantiate_resume_now ?a ?b ?c ?d ?x] =>
        destruct (@insubstantiate_resume_now_keeps a b c d x)
          as (w2 & E & Inv2)
    end.
    1-4: destruct force; inv_leaf.
    rewrite E. unfold fire, emit. wcbn.
    eapply controller_invariant_ext; [| | exact Inv2]; reflexivity.
  - rewrite insubstantiate_with_no_stop by auto.
    rewrite insubstantiate_insubstantiating by assumption.
    eexists; split; [reflexivity |]. inv_leaf.
  - rewrite insubstantiate_with_no_stop by auto.
    destruct (insubstantiate_queued_frames fast force w Hst)
      as (sus & evs & E & _ & _ & Hsf).
    cbv zeta in E. rewrite E. clear E.
    eexists; split; [reflexivity |]. inv_leaf.
Qed.


(** *** Every method keeps the invariant *)

Ltac use_clear_build_wait :=
  wcbn;
  match goal with
  | |- context [_clearBuildWaitTimer ?x] =>
      let E := fresh "E" in
      destruct (clearBuildWaitTimer_spec x) as (?rs & E & ?Hrs);
      cbn [self reactor next_id suspended trace] in *;
      rewrite E; clear E; wcbn
  end.

Ltac use_set_build_wait :=
  wcbn;
  match goal with
  | |- context [_setBuildWaitTimer ?x] =>
      let E := fresh "E" in
      destruct (setBuildWaitTimer_spec x) as (?rs & ?Hrs & E);
      cbn [self reactor next_id suspended trace] in *;
      rewrite E; clear E;
      match goal with
      | |- context [(?a <=? 0)%Z] => destruct (a <=? 0)%Z
      end; cbv zeta; wcbn
  end.

Ltac wnorm :=
  cbv beta iota;
  cbn [fst snd self reactor next_id suspended trace
         state conn substantiation_build _substantiation_notifier
         build_wait_timeout missing_timeout parent notify_on_missing name
         _insubstantiation_notifier build_wait_timer missing_timer
         set_state set_conn set_substantiation_build set_build_wait_timer
         set_missing_timer set_substantiation_notifier
         set_insubstantiation_notifier set_workerforbuilders
         States_eqb andb orb negb state_in existsb is_some];
  repeat match goal with
         | H : state (self ?w0) = _ |- context [state (self ?w0)] =>
             rewrite H
         | H : is_some ?c = _ |- context [is_some ?c] => rewrite H
         end;
  cbv beta iota;
  cbn [fst snd States_eqb andb orb negb state_in existsb].

Ltac done_invariant :=
  wcbn;
  first [ assumption
        | eapply controller_invariant_ext; [| | eassumption]; reflexivity
        | inv_leaf ].

Lemma substantiate_keeps (wfb : WorkerForBuilder) (build : Build)
    (w : World) :
  controller_invariant w ->
  controller_invariant (snd (substantiate wfb build w)).
Proof.
  intros Inv.
  unfold substantiate, startMissingTimer, callLater, Notifier_wait.
  mrun'.
  destruct (state (self w)) eqn:Hst;
    cbn [States_eqb state_in existsb orb andb negb]; wcbn.
  3: destruct (is_some (conn (self w))) eqn:Hc; cbn [negb]; wcbn.
  3: use_set_build_wait; done_invariant.
  all: try solve [done_invariant].
  all: use_stop_missing_frames; wnorm.
  - change (_substantiate (Some build))
      with (_substantiate_now None None (Some build)).
    use_substantiate_now. done_invariant.
  - idtac.
    match goal with
    | |- context [insubstantiate ?f ?g ?x] =>
        destruct (@insubstantiate_tear_down f g x (or_intror Hst))
          as (rs' & Hrs' & E)
    end.
    wcbn. cbn [self reactor next_id suspended trace] in E.
    rewrite E. wcbn. inv_leaf.
  - inv_leaf.
Qed.


Lemma attached_keeps (bot : Bot) (w : World) :
  controller_invariant w ->
  controller_invariant (snd (attached bot w)).
Proof.
  intros Inv. unfold attached, AbstractWorker_attached, _disconnect. mrun'.
  destruct (negb (States_eqb (state (self w)) SUBSTANTIATING)
            && (0 <=? build_wait_timeout (self w))%Z);
    wcbn; inv_leaf.
Qed.

Lemma attached_resume_keeps (bot : Bot) (o : Outcome) (w : World) :
  controller_invariant w ->
  exists r w1, attached_resume bot o w = (r, w1) /\ controller_invariant w1.
Proof.
  intros Inv.
  unfold attached_resume, AbstractWorker_attached_result. mrun'.
  destruct o as [v | e]; wcbn.
  - unfold when. mrun'.
    destruct (state (self w)) eqn:Hst; wnorm.
    all: use_fire_frames.
    all: do 2 eexists; (split; [reflexivity |]); inv_leaf.
  - change (_substantiation_failed (Failure e))
      with (_substantiation_failed_now None (Failure e)).
    use_failed_now.
    do 2 eexists; split; [reflexivity |]. done_invariant.
Qed.

Lemma missing_timer_fired_keeps (w : World) :
  controller_invariant w ->
  exists r w1, _missing_timer_fired w = (r, w1) /\ controller_invariant w1.
Proof.
  intros Inv. unfold _missing_timer_fired. mrun'.
  change (_substantiation_failed (Failure TimeoutError))
    with (_substantiation_failed_now None (Failure TimeoutError)).
  use_failed_now.
  do 2 eexists; split; [reflexivity |]. done_invariant.
Qed.

Lemma on_missing_timer_keeps (w : World) :
  controller_invariant w ->
  controller_invariant (snd (on_missing_timer w)).
Proof.
  intros Inv. unfold on_missing_timer, active, cancel, when. mrun'.
  destruct (missing_timer (self w)) as [dc |]; wcbn; [| exact Inv].
  destruct (existsb _ (reactor w)); wcbn; [| exact Inv].
  match goal with
  | |- context [_missing_timer_fired ?x] =>
      destruct (@missing_timer_fired_keeps x) as (r & w1 & E & Inv1);
      [inv_leaf | rewrite E]
  end.
  destruct r; exact Inv1.
Qed.

Lemma buildStarted_keeps (wfb : WorkerForBuilder) (w : World) :
  controller_invariant w ->
  controller_invariant (snd (buildStarted wfb w)).
Proof.
  intros Inv. unfold buildStarted. mrun'.
  destruct (isBusy wfb); wcbn; [| exact Inv].
  use_clear_build_wait. done_invariant.
Qed.

Lemma buildFinished_keeps (wfb : WorkerForBuilder) (w : World) :
  controller_invariant w ->
  controller_invariant (snd (buildFinished wfb w)).
Proof.
  intros Inv. unfold buildFinished, callLater, when. mrun'.
  destruct (negb (isBusy wfb)); wcbn; [| exact Inv].
  destruct (is_nil (building (self w))); wcbn; [| done_invariant].
  destruct (build_wait_timeout (self w) =? 0)%Z; wcbn; [done_invariant |].
  use_set_build_wait; done_invariant.
Qed.

Lemma detached_keeps (w : World) :
  controller_invariant w ->
  controller_invariant (snd (detached w)).
Proof. intros Inv. unfold detached. mrun'. inv_leaf. Qed.


Lemma substantiate_resume_keeps (dw : bool) (o : Outcome) (w : World) :
  controller_invariant w ->
  exists w1, _substantiate_resume dw o w = (Ok tt, w1)
             /\ controller_invariant w1.
Proof. exact (@substantiate_resume_now_keeps None dw o w). Qed.

Lemma on_deferred_keeps (d : Deferred) (o : Outcome) (w : World) :
  controller_invariant w ->
  controller_invariant (snd (on_deferred d o w)).
Proof.
  intros Inv. unfold on_deferred.
  destruct (take_suspended d (suspended w)) as [[s rest] |] eqn:Ht;
    [| exact Inv].
  destruct (take_suspended_stop_frames _ _ Ht) as (_ & Hf).
  unfold resume.
  destruct (frame s) as [dw | bot | nc |] eqn:Hfs; [| | | exact Inv].
  - unfold set_suspended, bind, finish. wcbn.
    match goal with
    | |- context [_substantiate_resume ?a ?b ?x] =>
        destruct (@substantiate_resume_keeps a b x) as (w1 & E & Inv1);
        [inv_leaf | rewrite E]
    end.
    unfold fire, emit. wcbn. done_invariant.
  - unfold set_suspended, bind, finish. wcbn.
    match goal with
    | |- context [attached_resume ?a ?b ?x] =>
        destruct (@attached_resume_keeps a b x) as (r & w1 & E & Inv1);
        [inv_leaf | rewrite E]
    end.
    destruct r; unfold fire, emit; wcbn; done_invariant.
  - destruct (@stop_frame_taken w d s rest nc Inv Ht Hfs) as (Hst & Hr & Hb).
    unfold set_suspended, bind, finish. wcbn.
    match goal with
    | |- context [insubstantiate_resume ?a ?b ?x] =>
        destruct (@insubstantiate_resume_now_keeps None None a b x)
          as (w1 & E & Inv1)
    end.
    + destruct Inv as (Ha & _). exact Ha.
    + exact Hst.
    + exact Hr.
    + exact Hb.
    + change (insubstantiate_resume_now None None nc o)
        with (insubstantiate_resume nc o) in E.
      rewrite E. unfold fire, emit. wcbn. done_invariant.
Qed.

Lemma insubstantiate_keeps (fast force : bool) (w : World) :
  controller_invariant w ->
  controller_invariant (snd (insubstantiate fast force w)).
Proof.
  intros Inv.
  destruct (@insubstantiate_with_keeps None None fast force w Inv)
    as (w1 & E & Inv1).
  change (insubstantiate_with None None fast force)
    with (insubstantiate fast force) in E.
  now rewrite E.
Qed.

(** One input, whatever it is, keeps the invariant. *)
Lemma step_keeps_invariant (w : World) (i : Input) :
  controller_invariant w -> controller_invariant (step w i).
Proof.
  intros Inv. unfold step. destruct i; cbn [handle].
  - pose proof (@substantiate_keeps wfb build w Inv) as H.
    unfold bind, ret. destruct (substantiate wfb build w) as [[] ?]; exact H.
  - pose proof (@insubstantiate_keeps fast force_substantiation w Inv) as H.
    unfold bind, ret.
    destruct (insubstantiate fast force_substantiation w) as [[] ?]; exact H.
  - pose proof (@attached_keeps bot w Inv) as H.
    unfold bind, ret. destruct (attached bot w) as [[] ?]; exact H.
  - now apply detached_keeps.
  - now apply buildStarted_keeps.
  - now apply buildFinished_keeps.
  - now apply on_deferred_keeps.
  - now apply on_missing_timer_keeps.
Qed.

Lemma run_keeps_invariant (l : list Input) (w : World) :
  controller_invariant w -> controller_invariant (run w l).
Proof.
  revert w. induction l as [| i l IH]; intros w Inv; cbn.
  - exact Inv.
  - apply IH. now apply step_keeps_invariant.
Qed.

Lemma boot_invariant (workername : string) (bwt missing : Z)
    (notify : list string) (wfbs : list (string * WorkerForBuilder)) :
  controller_invariant
    (boot (reconfigService workername bwt missing notify wfbs)).
Proof.
  unfold controller_invariant. cbn. repeat split; congruence.
Qed.


(** ** A substantiation that was queued behind the tear-down *)

Lemma set_substantiation_notifier_same (s : Worker) :
  set_substantiation_notifier (_substantiation_notifier s) s = s.
Proof. now destruct s. Qed.

(** Firing the substantiation notifier right after the pending build was
    dropped leaves the controller without build and without waiters,
    whether there was a waiter or not. *)
Lemma dropped_and_fired (s : Worker) :
  (if Notifier_bool (_substantiation_notifier (set_substantiation_build None s))
   then set_substantiation_notifier []
          (set_substantiation_build None (set_substantiation_build None s))
   else set_substantiation_build None s)
  = set_substantiation_notifier [] (set_substantiation_build None s).
Proof.
  destruct s as [? ? ? ? ? ? ? ? n ? ? ? ?]. destruct n; reflexivity.
Qed.

(** [self.insubstantiate()] on a worker that is SUBSTANTIATING: the
    tear-down starts and [stop_instance(False)] is called; when the driver
    has answered already the call runs through to NOT_SUBSTANTIATED. *)
Lemma insubstantiate_now_coming_up (stop_now : option Outcome) (w : World) :
  state (self w) = SUBSTANTIATING ->
  exists rs sus evs,
    let down := set_build_wait_timer None
                  (set_state INSUBSTANTIATING (self w)) in
    incl rs (reactor w)
    /\ insubstantiate_now stop_now w =
         (Ok (next_id w),
          mkWorld (match stop_now with
                   | None => down
                   | Some _ => stopped_snapshot true down
                   end)
            rs (S (S (next_id w))) sus
            (trace w ++ ev_log "insubstantiating worker"
                     :: ev_stop_instance false (S (next_id w)) :: evs))
    /\ stop_frames sus =
         match stop_now with
         | None => true :: stop_frames (suspended w)
         | Some _ => stop_frames (suspended w)
         end.
Proof.
  intros Hst. rewrite (insubstantiate_now_with None stop_now w).
  destruct (insubstantiate_with_tear_down None stop_now false false w
              (or_introl Hst)) as (rs & Hrs & E).
  cbv zeta in E. rewrite E. clear E. rewrite Hst. cbn [States_eqb].
  exists rs. destruct stop_now as [o |].
  - unfold finish.
    match goal with
    | |- context [insubstantiate_resume_now ?a ?b ?c ?d ?x] =>
        destruct (@insubstantiate_resume_now_down a b c d x eq_refl)
          as (sus & evs & E & Hsf & _)
    end.
    rewrite E. unfold fire, emit. wcbn.
    cbn [self suspended] in Hsf.
    exists sus. eexists. cbv zeta.
    split; [exact Hrs |]. split; [| exact Hsf].
    repeat rewrite <- app_assoc. cbn [app]. reflexivity.
  - eexists. exists []. cbv zeta.
    split; [exact Hrs |]. split; reflexivity.
Qed.

(** [_substantiation_failed(failure)] on a worker that is SUBSTANTIATING:
    the pending build is dropped, the waiters of the substantiation
    notifier receive [failure], and the tear-down starts. *)
Lemma substantiation_failed_now_spec (stop_now : option Outcome)
    (failure : Result) (w : World) :
  state (self w) = SUBSTANTIATING ->
  exists rs sus evs,
    let failed := set_substantiation_notifier []
                    (set_substantiation_build None (self w)) in
    let down := set_build_wait_timer None
                  (set_state INSUBSTANTIATING failed) in
    incl rs (reactor w)
    /\ _substantiation_failed_now stop_now failure w =
         (Ok tt,
          mkWorld (match stop_now with
                   | None => down
                   | Some _ => stopped_snapshot true down
                   end)
            rs (S (S (next_id w))) sus (trace w ++ evs))
    /\ stop_frames sus =
         match stop_now with
         | None => true :: stop_frames (suspended w)
         | Some _ => stop_frames (suspended w)
         end
    /\ (forall d, In d (_substantiation_notifier (self w)) ->
          In (ev_fired d failure failed) evs)
    /\ In (ev_stop_instance false (S (next_id w))) evs.
Proof.
  intros Hst. unfold _substantiation_failed_now. mrun'.
  rewrite Hst. cbn [States_eqb when]. mrun'.
  use_fire_frames.
  rewrite dropped_and_fired in *.
  match goal with
  | |- context [insubstantiate_now ?st ?x] =>
      destruct (@insubstantiate_now_coming_up st x Hst)
        as (rs & sus1 & evs1 & Hrs & E & Hsf1)
  end.
  cbv zeta in E. cbn [self reactor next_id suspended trace] in *.
  rewrite E. clear E. wcbn.
  exists rs, sus1. cbv zeta.
  assert (Hd : forall d, In d (_substantiation_notifier (self w)) ->
            In (ev_fired d failure
                  (set_substantiation_notifier []
                     (set_substantiation_build None (self w)))) evs).
  { intros d Hd. apply I. exact Hd. }
  destruct (negb (parent _) || is_nil (notify_on_missing _)); wcbn;
    eexists; repeat rewrite <- app_assoc;
    (split; [exact Hrs |]);
    (split; [reflexivity |]);
    (split; [rewrite Hsf1, Hsf; reflexivity |]);
    (split; [intros d Hd'; apply in_or_app; left; apply Hd, Hd' |]);
    find_in.
Qed.


(** [_substantiate(build)] on a worker that is SUBSTANTIATING, through to
    the point where it hands control back: [start_instance(build)] is
    called first; the waiters of the substantiation notifier are notified
    of the failure when the driver did not start the instance. *)
Lemma substantiate_now_spec (start_now stop_now : option Outcome)
    (build : option Build) (w : World) :
  state (self w) = SUBSTANTIATING ->
  exists rs n1 sus evs,
    incl rs (reactor w)
    /\ _substantiate_now start_now stop_now build w =
         (Ok (next_id w),
          mkWorld (start_answered start_now stop_now (self w)) rs n1 sus
            (trace w ++ ev_start_instance build (S (next_id w)) :: evs))
    /\ stop_frames sus =
         match start_now, stop_now with
         | Some o, None =>
             match start_failure (name (self w)) o with
             | Some _ => true :: stop_frames (suspended w)
             | None => stop_frames (suspended w)
             end
         | _, _ => stop_frames (suspended w)
         end
    /\ (forall o e d,
          start_now = Some o ->
          start_failure (name (self w)) o = Some e ->
          In d (_substantiation_notifier (self w)) ->
          In (ev_fired d (Failure e)
                (set_substantiation_notifier []
                   (set_substantiation_build None
                      (set_missing_timer None (self w))))) evs).
Proof.
  intros Hst.
  unfold _substantiate_now, start_instance, start_answered. mrun'.
  destruct start_now as [[[|] | e] |]; wcbn; cbn [start_failure].
  - (* the instance has started *)
    unfold _substantiate_resume_now. mrun'. cbn [negb]. wcbn.
    rewrite Hst. cbn [States_eqb]. rewrite andb_true_r.
    rewrite <- andb_assoc, andb_diag.
    destruct ((build_wait_timeout (self w) <? 0)%Z && is_some (conn (self w)));
      wcbn.
    + use_fire_frames. unfold notifier_fired.
      cbn [_substantiation_notifier set_state] in *.
      exists (reactor w). do 3 eexists.
      split; [apply incl_refl |].
      repeat rewrite <- app_assoc. cbn [app].
      split; [reflexivity |].
      split; [destruct stop_now; exact Hsf |].
      intros o e d Ho He. inversion Ho; subst. discriminate He.
    + exists (reactor w). do 3 eexists.
      split; [apply incl_refl |].
      repeat rewrite <- app_assoc. cbn [app].
      split; [reflexivity |].
      split; [destruct stop_now; reflexivity |].
      intros o e d Ho He. inversion Ho; subst. discriminate He.
  - (* the driver answered False *)
    unfold _substantiate_resume_now. mrun'. cbn [negb]. wcbn.
    use_stop_missing_frames.
    match goal with
    | |- context [_substantiation_failed_now ?st ?f ?x] =>
        destruct (@substantiation_failed_now_spec st f x Hst)
          as (rs' & sus & evs & Hrs' & E & Hsf & Hd & _)
    end.
    cbv zeta in E, Hd. cbn [self reactor next_id suspended trace] in *.
    rewrite E. clear E. wcbn.
    destruct stop_now as [o' |];
      (exists rs'; do 3 eexists;
       (split; [eapply incl_tran; eassumption |]);
       repeat rewrite <- app_assoc; cbn [app];
       (split; [reflexivity |]);
       (split; [exact Hsf |]);
       intros o e d Ho He Hin; inversion Ho; subst; cbn in He;
       inversion He; subst;
       apply in_or_app; left;
       cbn [name set_missing_timer] in Hd; apply Hd;
       exact Hin).
  - (* the driver raised *)
    unfold _substantiate_resume_now. mrun'. wcbn.
    use_stop_missing_frames.
    match goal with
    | |- context [_substantiation_failed_now ?st ?f ?x] =>
        destruct (@substantiation_failed_now_spec st f x Hst)
          as (rs' & sus & evs & Hrs' & E & Hsf & Hd & _)
    end.
    cbv zeta in E, Hd. cbn [self reactor next_id suspended trace] in *.
    rewrite E. clear E. wcbn.
    destruct stop_now as [o' |];
      (exists rs'; do 3 eexists;
       (split; [eapply incl_tran; eassumption |]);
       repeat rewrite <- app_assoc; cbn [app];
       (split; [reflexivity |]);
       (split; [exact Hsf |]);
       intros o e' d Ho He Hin; inversion Ho; subst; cbn in He;
       inversion He; subst;
       apply in_or_app; left; apply Hd; exact Hin).
  - (* the driver has not answered yet *)
    exists (reactor w). do 2 eexists. exists [].
    split; [apply incl_refl |].
    split; [reflexivity |].
    split; [reflexivity |].
    intros o e d H. discriminate H.
Qed.


Lemma start_answered_name (start_now stop_now : option Outcome)
    (s : Worker) :
  name (start_answered start_now stop_now s) = name s.
Proof.
  unfold start_answered, notifier_fired.
  destruct start_now as [o |]; [| reflexivity].
  destruct (start_failure (name s) o).
  - destruct stop_now; reflexivity.
  - destruct ((build_wait_timeout s <? 0)%Z && is_some (conn s));
      [| reflexivity].
    cbn. destruct (Notifier_bool (_substantiation_notifier s)); reflexivity.
Qed.

(** [insubstantiate] once [stop_instance] has finished, whatever its
    outcome [o] and whatever the driver answers from then on, on a worker
    that is still tearing down.  The Deferred [out] that the call returned
    fires with success as the very last thing.  The calls that joined the
    tear-down complete before that, all in the same state: NOT_SUBSTANTIATED,
    or SUBSTANTIATING when a substantiation was queued or forced.  In the
    second case [start_instance] is called for the pending build before
    [out] fires, and [out] sees what the driver's answer has led to. *)
Lemma insubstantiate_stopped_now (start_now stop_now : option Outcome)
    (nc : bool) (o : Outcome) (out : Deferred) (w : World) :
  state (self w) = INSUBSTANTIATING
  \/ state (self w) = INSUBSTANTIATING_SUBSTANTIATING ->
  let snap := stopped_snapshot nc (self w) in
  let final := if States_eqb (state (self w)) INSUBSTANTIATING then snap
               else start_answered start_now stop_now snap in
  let w' := snd (finish out (insubstantiate_resume_now start_now stop_now
                               nc o) w) in
  exists evs,
    trace w' = trace w ++ evs ++ [ev_fired out Success final]
    /\ self w' = final
    /\ (forall d, In d (_insubstantiation_notifier (self w)) ->
          In (ev_fired d Success snap) evs)
    /\ (forall d s rest,
          In d (_insubstantiation_notifier (self w)) ->
          ~ In d (_substantiation_notifier (self w)) ->
          take_suspended d (suspended w) = Some (s, rest) ->
          frame s = at_insubstantiation_wait ->
          In (ev_fired (returns s) Success snap) evs)
    /\ (state (self w) = INSUBSTANTIATING_SUBSTANTIATING ->
        In (ev_start_instance (substantiation_build snap) (S (next_id w)))
           evs)
    /\ (forall o' e d,
          state (self w) = INSUBSTANTIATING_SUBSTANTIATING ->
          start_now = Some o' ->
          start_failure (name (self w)) o' = Some e ->
          In d (_substantiation_notifier snap) ->
          In (ev_fired d (Failure e)
                (set_substantiation_notifier []
                   (set_substantiation_build None
                      (set_missing_timer None snap)))) evs).
Proof.
  intros [Hst | Hst] snap final w'; subst snap final w'; rewrite Hst;
    cbn [States_eqb].
  - destruct (insubstantiate_resume_now_down start_now stop_now nc o w Hst)
      as (sus & evs & E & Hsf & I & Hw & _).
    unfold finish. rewrite E. unfold fire, emit. wcbn.
    exists evs. rewrite <- app_assoc.
    split; [reflexivity |]. split; [reflexivity |].
    split; [exact I |]. split; [exact Hw |].
    split; [intros H; discriminate H |].
    intros o' e d H. discriminate H.
  - unfold finish, insubstantiate_resume_now, stopped_snapshot. mrun'.
    destruct o as [v | e0]; wcbn; rewrite Hst;
      cbn [state_in existsb States_eqb orb]; wcbn.
    all: use_cancel_frames; cancel_fields; rewrite Hst; cbn [States_eqb];
      wcbn.
    all: use_insub_frames.
    all: cbn [_insubstantiation_notifier set_state name
                set_insubstantiation_notifier] in *.
    all: revert I Hw; cancel_fields; intros I Hw.
    all: match goal with
         | |- context [_substantiate_now ?a ?b ?c ?x] =>
             destruct (@substantiate_now_spec a b c x eq_refl)
               as (rs & n1 & sus1 & evs1 & Hrs & E & Hsf1 & Hd)
         end.
    all: cbn [self reactor next_id suspended trace] in *.
    all: rewrite E; clear E; wcbn.
    all: repeat rewrite <- app_assoc; cbn [app].
    1: exists (evs ++ evs0 ++ ev_start_instance
                 (substantiation_build (cancellation_delivered nc (self w)))
                 (S (next_id w))
               :: evs1 ++ [ev_maybeStartBuildsForWorker (name (self w))]).
    2: exists (ev_log_err e0 "while insubstantiating"
               :: evs ++ evs0 ++ ev_start_instance
                 (substantiation_build (cancellation_delivered nc (self w)))
                 (S (next_id w))
               :: evs1 ++ [ev_maybeStartBuildsForWorker (name (self w))]).
    all: split;
      [ rewrite start_answered_name;
        cbn [name set_insubstantiation_notifier set_state];
        cancel_fields;
        cbn [app]; repeat (rewrite <- app_assoc; cbn [app]); reflexivity |].
    all: split; [reflexivity |].
    all: split; [intros d Hin; find_in |].
    all: split;
      [ intros d s rest Hin Hnd Ht Hf;
        destruct (Hk d s rest Hnd Ht) as (rest' & Ht');
        pose proof (Hw d s rest' Hin Ht' Hf); find_in |].
    all: split; [intros _; find_in |].
    all: intros o' e d _ Ho He Hin;
      cbn [name set_insubstantiation_notifier set_state] in Hd;
      revert Hd; cancel_fields; intros Hd;
      pose proof (Hd o' e d Ho He Hin); find_in.
Qed.
